(** * ReasoningNode: the prompt-refiner step of the scraping graph

    A shallow embedding of [scrapegraphai/nodes/reasoning_node.py].  The node
    reads [user_prompt] from the shared state dictionary, asks a chat model
    to relate the request to the configured output schema, and writes the
    answer back into the same dictionary under its first output key.

    Python objects that are shared by reference (the state dictionary, the
    chat-model client, the node itself) live in a store indexed by
    locations; calls to collaborators are recorded in a call log. *)

From Stdlib Require Import String Ascii List ZArith.
From stdpp Require Import base option gmap strings list.

(** ** Python values *)

Definition loc := positive.

(** Classes of chat-model clients imported by the module. *)
Inductive llm_class :=
| ChatOpenAI
| AzureChatOpenAI
| ChatMistralAI
| ChatOllama
| OtherChatModel.

(** A chat-model client object; [format] is its response-format attribute. *)
Record ChatModel := {
  cls : llm_class;
  model : string;
  format : option string
}.

#[warnings="-register-all"]
Inductive value :=
| VNone
| VBool (b : bool)
| VInt (n : Z)
| VStr (s : string)
| VList (l : list value)
| VDict (kv : list (string * value))
| VLlm (l : loc)          (* reference to a chat-model client *)
| VSchema (c : nat).      (* a schema class exposing [.schema()] *)

Inductive exn :=
| KeyError (k : string)
| TypeError (msg : string)
| AttributeError (attr : string)
| IndexError (msg : string)
| ValueError (msg : string)
| Raised (what : string)  (* an exception raised inside a collaborator *)
| Unsupported (what : string). (* outside the modelled fragment *)

(** ** String literals and templates *)

Definition nl : ascii := ascii_of_nat 10.

(** The module's string literals are ordinary (non-raw) Python literals: the
    two characters backslash, n denote a line feed.  No other escape
    sequence occurs in the module. *)
Fixpoint py_literal (s : string) : string :=
  match s with
  | String "\" (String "n" s') => String nl (py_literal s')
  | String c s' => String c (py_literal s')
  | EmptyString => EmptyString
  end.

Definition TEMPLATE_REASONING : string := py_literal "
        **Task**: Analyze the user's request and the provided JSON schema to clearly map the desired data extraction.\n
        Break down the user's request into key components, and then explicitly connect these components to the 
        corresponding elements within the JSON schema.

        **User's Request**:
        {user_input}

        **Desired JSON Output Schema**:
        ```json
        {json_schema}
        ```

        **Analysis Instructions**:
        1. **Break Down User Request:** 
        * Clearly identify the core entities or data types the user is asking for.\n
        * Highlight any specific attributes or relationships mentioned in the request.\n

        2. **Map to JSON Schema**:
        * For each identified element in the user request, pinpoint its exact counterpart in the JSON schema.\n
        * Explain how the schema structure accommodates the user's needs.
        * If applicable, mention any schema elements that are not directly addressed in the user's request.\n

        This analysis will be used to guide the HTML structure examination and ultimately inform the code generation process.\n
        Please generate only the analysis and no other text.

        **Response**:
        ".

Definition TEMPLATE_REASONING_WITH_CONTEXT : string := py_literal "
        **Task**: Analyze the user's request, the provided JSON schema, and the additional context the user provided to clearly map the desired data extraction.\n
        Break down the user's request into key components, and then explicitly connect these components to the corresponding elements within the JSON schema.\n

        **User's Request**:
        {user_input}

        **Desired JSON Output Schema**:
        ```json
        {json_schema}
        ```

        **Additional Context**:
        {additional_context}

        **Analysis Instructions**:
        1. **Break Down User Request:** 
        * Clearly identify the core entities or data types the user is asking for.\n
        * Highlight any specific attributes or relationships mentioned in the request.\n

        2. **Map to JSON Schema**:
        * For each identified element in the user request, pinpoint its exact counterpart in the JSON schema.\n
        * Explain how the schema structure accommodates the user's needs.\n
        * If applicable, mention any schema elements that are not directly addressed in the user's request.\n

        This analysis will be used to guide the HTML structure examination and ultimately inform the code generation process.\n
        Please generate only the analysis and no other text.

        **Response**:
        ".

(** ** Template rendering

    [PromptTemplate] renders with Python's format-string syntax.  A template
    is split into literal text and replacement fields; [{{] and [}}] stand
    for single braces.  Only plain named fields are modelled (no conversion,
    format specification, attribute or index access), which is all the two
    templates use.  A field is replaced by [str()] of the value bound to it;
    the library first calls a bound value that is callable (a class, a
    client object), which is outside this model: see [is_data]. *)

Inductive piece :=
| Lit (s : string)
| Field (name : string).

Definition snoc (s : string) (c : ascii) : string := s +:+ String c "".

Definition plain_field_char (c : ascii) : bool :=
  negb (existsb (Ascii.eqb c) ["{"; "!"; ":"; "."; "["]%char).

(** [parse t lit fld]: [lit] is the literal text read so far; [fld] is
    [Some f] while inside a replacement field whose name so far is [f]. *)
Fixpoint parse (t : string) (lit : string) (fld : option string)
  : exn + list piece :=
  match fld, t with
  | None, EmptyString => inr [Lit lit]
  | None, String "{" (String "{" t') => parse t' (snoc lit "{") None
  | None, String "{" t' =>
      match parse t' "" (Some "") with
      | inr ps => inr (Lit lit :: ps)
      | inl e => inl e
      end
  | None, String "}" (String "}" t') => parse t' (snoc lit "}") None
  | None, String "}" _ =>
      inl (ValueError "Single '}' encountered in format string")
  | None, String c t' => parse t' (snoc lit c) None
  | Some _, EmptyString =>
      inl (ValueError "expected '}' before end of string")
  | Some "", String "}" _ => inl (Unsupported "positional field")
  | Some f, String "}" t' =>
      match parse t' "" None with
      | inr ps => inr (Field f :: ps)
      | inl e => inl e
      end
  | Some f, String c t' =>
      if plain_field_char c then parse t' lit (Some (snoc f c))
      else inl (Unsupported "field with conversion, specification or access")
  end.

Definition pieces (template : string) : exn + list piece :=
  parse template "" None.


(** ** Collaborators

    The node delegates to code it does not define: the schema class's
    description method, the [transform_schema] utility of the package, the
    chat-model client and the output parser.  They are taken as an
    interface; every instance is a deterministic stub. *)

Class Externals := {
  message : Type;
  (** [output_schema.schema()] for the schema class with the given tag *)
  schema_description : nat -> exn + value;
  (** [transform_schema(description)] *)
  transform_schema : value -> exn + value;
  (** the client answers a rendered prompt, or raises *)
  invoke_llm : ChatModel -> string -> exn + message;
  (** [StrOutputParser]: the text of a raw response *)
  parse_output : message -> string;
  (** [str(v)] for values that are neither strings, booleans nor [None] *)
  str_other : value -> string
}.

Section Model.
Context `{Ext : Externals}.

Definition py_str (v : value) : string :=
  match v with
  | VStr s => s
  | VNone => "None"
  | VBool true => "True"
  | VBool false => "False"
  | _ => str_other v
  end.

(** Substitution of the variables into the parsed template. *)
Fixpoint fill (ps : list piece) (vars : gmap string value) : exn + string :=
  match ps with
  | [] => inr ""
  | Lit s :: ps' =>
      match fill ps' vars with
      | inr r => inr (s +:+ r)
      | inl e => inl e
      end
  | Field f :: ps' =>
      match vars !! f with
      | None => inl (KeyError f)
      | Some v =>
          match fill ps' vars with
          | inr r => inr (py_str v +:+ r)
          | inl e => inl e
          end
      end
  end.

Record PromptTemplate := {
  template : string;
  partial_variables : gmap string value
}.

(** [prompt.invoke({})]: no input variables, the partial variables fill
    every field. *)
Definition render (p : PromptTemplate) : exn + string :=
  match pieces (template p) with
  | inr ps => fill ps (partial_variables p)
  | inl e => inl e
  end.

(** ** Nodes, the store and the call log *)

(** Modelled from the spec: the attributes set by [BaseNode.__init__], which
    is defined in [base_node.py], not in this module.  The constructor keeps
    its arguments: the node name, the node type, the input-key expression,
    the list of output keys, the minimum number of inputs and the
    configuration mapping. *)
Record BaseNode := {
  node_name : string;
  node_type : string;
  input : string;
  output : list string;
  min_input_len : nat;
  node_config : option (gmap string value)
}.

Record Node := {
  base : BaseNode;
  llm_model : value;
  verbose : value;
  force : value;
  additional_info : value;
  output_schema : value;
  (** set by [execute]; absent on a new node *)
  simplefied_schema : option value
}.

Inductive event :=
| LoggerInfo (msg : string)
| SchemaDescription (c : nat)
| TransformSchema (description : value)
| NewPromptTemplate (p : PromptTemplate)
| LlmInvoke (l : loc) (prompt : string)
| ParseOutput (raw : message).

Record World := {
  dicts : gmap loc (gmap string value);
  llms : gmap loc ChatModel;
  nodes : gmap loc Node;
  calls : list event
}.

Definition with_dicts (f : gmap loc (gmap string value) -> gmap loc (gmap string value))
    (w : World) : World :=
  {| dicts := f (dicts w); llms := llms w; nodes := nodes w; calls := calls w |}.

Definition with_llms (f : gmap loc ChatModel -> gmap loc ChatModel) (w : World) : World :=
  {| dicts := dicts w; llms := f (llms w); nodes := nodes w; calls := calls w |}.

Definition with_nodes (f : gmap loc Node -> gmap loc Node) (w : World) : World :=
  {| dicts := dicts w; llms := llms w; nodes := f (nodes w); calls := calls w |}.

Definition with_calls (f : list event -> list event) (w : World) : World :=
  {| dicts := dicts w; llms := llms w; nodes := nodes w; calls := f (calls w) |}.

(** ** Computations: a store, a call log and exceptions *)

Definition M (A : Type) : Type := World -> (exn + A) * World.

Definition ret {A} (a : A) : M A := fun w => (inr a, w).

Definition raise {A} (e : exn) : M A := fun w => (inl e, w).

Definition bind {A B} (m : M A) (k : A -> M B) : M B :=
  fun w =>
    match m w with
    | (inr a, w') => k a w'
    | (inl e, w') => (inl e, w')
    end.

Notation "x <- m ;; k" := (bind m (fun x => k))
  (at level 100, m at next level, right associativity).
Notation "m ;; k" := (bind m (fun _ => k))
  (at level 100, right associativity).

Definition lift {A} (r : exn + A) : M A :=
  match r with
  | inr a => ret a
  | inl e => raise e
  end.

Definition record (ev : event) : M unit :=
  fun w => (inr tt, with_calls (fun l => l ++ [ev]) w).

(** A call to a collaborator: logged, then its result or exception. *)
Definition call {A} (ev : event) (r : exn + A) : M A :=
  record ev ;; lift r.

Definition dangling {A} : M A := raise (Unsupported "dangling reference").

(** [self.attr] *)
Definition attr {A} (self : loc) (f : Node -> A) : M A :=
  fun w =>
    match nodes w !! self with
    | Some nd => (inr (f nd), w)
    | None => dangling w
    end.

(** [state[key]] *)
Definition getitem (d : loc) (key : string) : M value :=
  fun w =>
    match dicts w !! d with
    | Some m =>
        match m !! key with
        | Some v => (inr v, w)
        | None => (inl (KeyError key), w)
        end
    | None => dangling w
    end.

(** [state.update({key: v})]: the dictionary object itself is changed. *)
Definition update (d : loc) (key : string) (v : value) : M unit :=
  fun w =>
    match dicts w !! d with
    | Some m => (inr tt, with_dicts (insert d (<[key := v]> m)) w)
    | None => dangling w
    end.

(** [l[0]] *)
Definition first (l : list string) : M string :=
  match l with
  | k :: _ => ret k
  | [] => raise (IndexError "list index out of range")
  end.

(** [obj.schema()]: a schema class describes itself; data values have no
    such attribute.  A client object is itself a model class instance with a
    [schema] method, whose result is not modelled. *)
Definition schema (obj : value) : M value :=
  match obj with
  | VSchema c => call (SchemaDescription c) (schema_description c)
  | VLlm _ => raise (Unsupported "schema of a client object")
  | _ => raise (AttributeError "schema")
  end.

Definition is_not_None (v : value) : bool :=
  match v with
  | VNone => false
  | _ => true
  end.

(** Data values: everything but the callable ones (classes and client
    objects). *)
Definition is_data (v : value) : bool :=
  match v with
  | VLlm _ | VSchema _ => false
  | _ => true
  end.

(** [PromptTemplate(template=..., partial_variables=...)] *)
Definition new_PromptTemplate (t : string) (vars : gmap string value) : M PromptTemplate :=
  let p := {| template := t; partial_variables := vars |} in
  record (NewPromptTemplate p) ;; ret p.

(** The message of the type error raised when [prompt | v] is built over a
    value of the built-in type [ty] that cannot be made a runnable. *)
Definition not_runnable (ty : string) : string :=
  "Expected a Runnable, callable or dict.Instead got an unsupported type: <class '"
  +:+ ty +:+ "'>".

(** [(prompt | llm | StrOutputParser()).invoke({})].  A client object is
    invoked on the rendered prompt.  A data value that is neither callable
    nor a dictionary is rejected when the chain is built.  A dictionary
    would be coerced to a parallel runnable and a class to a function
    runnable; neither is modelled. *)
Definition invoke_chain (p : PromptTemplate) (llm : value) : M string :=
  match llm with
  | VLlm l =>
      text <- lift (render p) ;;
      raw <- (fun w =>
                match llms w !! l with
                | Some client => call (LlmInvoke l text) (invoke_llm client text) w
                | None => dangling w
                end) ;;
      record (ParseOutput raw) ;;
      ret (parse_output raw)
  | VDict _ => raise (Unsupported "dictionary coerced to a runnable")
  | VSchema _ => raise (Unsupported "class coerced to a runnable")
  | VNone => raise (TypeError (not_runnable "NoneType"))
  | VBool _ => raise (TypeError (not_runnable "bool"))
  | VInt _ => raise (TypeError (not_runnable "int"))
  | VStr _ => raise (TypeError (not_runnable "str"))
  | VList _ => raise (TypeError (not_runnable "list"))
  end.

(** ** [ReasoningNode.execute] *)

Definition with_simplefied_schema (nd : Node) (v : value) : Node :=
  {| base := base nd; llm_model := llm_model nd; verbose := verbose nd;
     force := force nd; additional_info := additional_info nd;
     output_schema := output_schema nd;
     simplefied_schema := Some v |}.

(** [self.simplefied_schema = v] *)
Definition set_simplefied_schema (self : loc) (v : value) : M unit :=
  fun w =>
    match nodes w !! self with
    | Some nd => (inr tt, with_nodes (insert self (with_simplefied_schema nd v)) w)
    | None => dangling w
    end.

(** [self.simplefied_schema] *)
Definition get_simplefied_schema (self : loc) : M value :=
  cached <- attr self simplefied_schema ;;
  match cached with
  | Some v => ret v
  | None => raise (AttributeError "simplefied_schema")
  end.

Definition execute (self state : loc) : M loc :=
  name <- attr self (fun nd => node_name (base nd)) ;;
  record (LoggerInfo ("--- Executing " +:+ name +:+ " Node ---")) ;;
  user_prompt <- getitem state "user_prompt" ;;
  schema_obj <- attr self output_schema ;;
  description <- schema schema_obj ;;
  simplified <- call (TransformSchema description) (transform_schema description) ;;
  set_simplefied_schema self simplified ;;
  info <- attr self additional_info ;;
  prompt <-
    (if is_not_None info then
       cached <- get_simplefied_schema self ;;
       new_PromptTemplate TEMPLATE_REASONING_WITH_CONTEXT
         (<["user_input" := user_prompt]>
            (<["json_schema" := VStr (py_str cached)]>
               (<["additional_context" := info]> ∅)))
     else
       cached <- get_simplefied_schema self ;;
       new_PromptTemplate TEMPLATE_REASONING
         (<["user_input" := user_prompt]>
            (<["json_schema" := VStr (py_str cached)]> ∅))) ;;
  llm <- attr self llm_model ;;
  refined_prompt <- invoke_chain prompt llm ;;
  out <- attr self (fun nd => output (base nd)) ;;
  key <- first out ;;
  update state key (VStr refined_prompt) ;;
  ret state.

(** ** [ReasoningNode.__init__] *)

(** Modelled from the spec: [BaseNode.__init__] (in [base_node.py]) stores
    what it is given. *)
Definition BaseNode__init__ (node_name node_type input : string) (output : list string)
    (min_input_len : nat) (node_config : option (gmap string value)) : M BaseNode :=
  ret {| node_name := node_name; node_type := node_type; input := input;
         output := output; min_input_len := min_input_len;
         node_config := node_config |}.

(** [node_config[key]] *)
Definition subscript (node_config : option (gmap string value)) (key : string) : M value :=
  match node_config with
  | None => raise (TypeError "'NoneType' object is not subscriptable")
  | Some m =>
      match m !! key with
      | Some v => ret v
      | None => raise (KeyError key)
      end
  end.

(** [node_config.get(key, dflt)] *)
Definition get (node_config : option (gmap string value)) (key : string) (dflt : value)
  : M value :=
  match node_config with
  | None => raise (AttributeError "get")
  | Some m => ret (default dflt (m !! key))
  end.

Definition is_ChatOllama (c : llm_class) : bool :=
  match c with
  | ChatOllama => true
  | _ => false
  end.

(** [isinstance(v, ChatOllama)] *)
Definition isinstance_ChatOllama (v : value) : M bool :=
  match v with
  | VLlm l =>
      fun w =>
        match llms w !! l with
        | Some client => (inr (is_ChatOllama (cls client)), w)
        | None => dangling w
        end
  | _ => ret false
  end.

(** [client] after [client.format = fmt] *)
Definition with_format (client : ChatModel) (fmt : string) : ChatModel :=
  {| cls := cls client; model := model client; format := Some fmt |}.

(** [obj.format = fmt] *)
Definition set_format (obj : value) (fmt : string) : M unit :=
  match obj with
  | VLlm l =>
      fun w =>
        match llms w !! l with
        | Some client =>
            (inr tt, with_llms (insert l (with_format client fmt)) w)
        | None => dangling w
        end
  | _ => raise (AttributeError "format")
  end.

Definition __init__ (input : string) (output : list string)
    (node_config : option (gmap string value)) (node_name : string) : M Node :=
  b <- BaseNode__init__ node_name "node" input output 2 node_config ;;
  llm <- subscript node_config "llm_model" ;;
  llm' <- subscript node_config "llm_model" ;;
  ollama <- isinstance_ChatOllama llm' ;;
  (if ollama then set_format llm "json" else ret tt) ;;
  verbose <-
    (match node_config with
     | None => ret (VBool true)
     | Some _ => get node_config "verbose" (VBool false)
     end) ;;
  force <-
    (match node_config with
     | None => ret (VBool false)
     | Some _ => get node_config "force" (VBool false)
     end) ;;
  info <- get node_config "additional_info" VNone ;;
  schema_obj <- get node_config "schema" VNone ;;
  ret {| base := b; llm_model := llm; verbose := verbose; force := force;
         additional_info := info; output_schema := schema_obj;
         simplefied_schema := None |}.

(** [ReasoningNode(input, output, node_config, node_name)]: a new node object
    is placed in the store once its initialiser has returned. *)
Definition ReasoningNode (input : string) (output : list string)
    (node_config : option (gmap string value)) (node_name : string) : M loc :=
  nd <- __init__ input output node_config node_name ;;
  fun w =>
    let self := fresh (dom (nodes w)) in
    (inr self, with_nodes (insert self nd) w).

(** ** What an execution is expected to build

    The template an execution selects, the prompt object it constructs and
    the text it sends, as functions of the node's [additional_info], the
    user's prompt and the simplified schema.  The theorems below relate
    [execute] to them. *)

Definition selected_template (info : value) : string :=
  if is_not_None info then TEMPLATE_REASONING_WITH_CONTEXT else TEMPLATE_REASONING.

Definition selected_prompt (info user_prompt simplified : value) : PromptTemplate :=
  {| template := selected_template info;
     partial_variables :=
       if is_not_None info then
         <["user_input" := user_prompt]>
           (<["json_schema" := VStr (py_str simplified)]>
              (<["additional_context" := info]> ∅))
       else
         <["user_input" := user_prompt]>
           (<["json_schema" := VStr (py_str simplified)]> ∅) |}.

Definition prompt_text (info user_prompt simplified : value) : string :=
  match render (selected_prompt info user_prompt simplified) with
  | inr text => text
  | inl _ => ""
  end.

(** The prompts one execution constructs: one, once the user's prompt has
    been read and the schema simplified; none if it stops before. *)
Definition built_prompts (nd : Node) (d : gmap string value) : list PromptTemplate :=
  match d !! "user_prompt", output_schema nd with
  | Some up, VSchema c =>
      match schema_description c with
      | inr description =>
          match transform_schema description with
          | inr simplified => [selected_prompt (additional_info nd) up simplified]
          | inl _ => []
          end
      | inl _ => []
      end
  | _, _ => []
  end.

(** The text between the schema and the additional context in the
    context-aware template. *)
Definition ADDITIONAL_CONTEXT_HEADING : string :=
  py_literal "
        ```

        **Additional Context**:
        ".

Definition logger_line (nd : Node) : event :=
  LoggerInfo ("--- Executing " +:+ node_name (base nd) +:+ " Node ---").

(** ** Reading the call log *)

Definition transforms (evs : list event) : list value :=
  omap (fun ev => match ev with TransformSchema d => Some d | _ => None end) evs.

Definition llm_calls (evs : list event) : list (loc * string) :=
  omap (fun ev => match ev with LlmInvoke l t => Some (l, t) | _ => None end) evs.

Definition prompts (evs : list event) : list PromptTemplate :=
  omap (fun ev => match ev with NewPromptTemplate p => Some p | _ => None end) evs.

End Model.

Fixpoint startswith (s p : string) : bool :=
  match p, s with
  | EmptyString, _ => true
  | String a p', String b s' => Ascii.eqb a b && startswith s' p'
  | String _ _, EmptyString => false
  end.

(** [contains s needle]: Python's [needle in s]. *)
Fixpoint contains (s needle : string) : bool :=
  startswith s needle ||
  match s with
  | EmptyString => false
  | String _ s' => contains s' needle
  end.

(** Two results of [execute] agree when both raise the same exception, or
    each returns the state object it was given. *)
Definition same_result (st1 st2 : loc) (r1 r2 : exn + loc) : Prop :=
  match r1, r2 with
  | inl e1, inl e2 => e1 = e2
  | inr a, inr b => a = st1 /\ b = st2
  | _, _ => False
  end.

(** ** Stub collaborators and a small store, for concrete runs *)

Module Stub.

Definition description : value :=
  VDict [("title", VStr "Products");
         ("properties", VDict [("name", VDict [("type", VStr "string")]);
                               ("price", VDict [("type", VStr "number")])])].

Definition simplified : value :=
  VDict [("name", VStr "string"); ("price", VStr "number")].

(** Schema class 0 describes products; class 1 yields a description the
    transform rejects; any other class fails to describe itself. *)
Definition describe (c : nat) : exn + value :=
  match c with
  | 0 => inr description
  | 1 => inr VNone
  | _ => inl (Raised "schema")
  end.

Definition transform (d : value) : exn + value :=
  match d with
  | VDict _ => inr simplified
  | _ => inl (Raised "transform_schema")
  end.

(** A client whose model is named [offline] cannot be reached. *)
Definition answer (client : ChatModel) (prompt : string) : exn + string :=
  if String.eqb (model client) "offline" then inl (Raised "connection refused")
  else
    match format client with
    | Some _ => inr "{analysis: name -> name, price -> price}"
    | None => inr "The request names products and prices; both are schema fields."
    end.

Definition show (v : value) : string :=
  match v with
  | VDict _ => "{'name': 'string', 'price': 'number'}"
  | _ => "<object>"
  end.

#[export] Instance externals : Externals := {|
  message := string;
  schema_description := describe;
  transform_schema := transform;
  invoke_llm := answer;
  parse_output := fun raw => raw;
  str_other := show
|}.

Definition openai : ChatModel :=
  {| cls := ChatOpenAI; model := "gpt-4o-mini"; format := None |}.

Definition ollama : ChatModel :=
  {| cls := ChatOllama; model := "llama3"; format := None |}.

Definition offline : ChatModel :=
  {| cls := ChatMistralAI; model := "offline"; format := None |}.

Definition config (llm : loc) : gmap string value :=
  <["llm_model" := VLlm llm]> (<["schema" := VSchema 0]> ∅).

Definition state0 : gmap string value :=
  <["user_prompt" := VStr "extract product names and prices"]>
    (<["url" := VStr "https://example.com/shop"]> ∅).

(** Clients at locations 1 to 3, the state dictionary at 10, no node yet. *)
Definition w0 : World :=
  {| dicts := <[10%positive := state0]> ∅;
     llms := <[1%positive := openai]>
               (<[2%positive := ollama]> (<[3%positive := offline]> ∅));
     nodes := ∅;
     calls := [] |}.

Definition with_info (info : value) (cfg : gmap string value) : gmap string value :=
  <["additional_info" := info]> cfg.

Definition config_without_schema : gmap string value :=
  <["llm_model" := VLlm 1%positive]> ∅.

Definition config_without_client : gmap string value :=
  <["schema" := VSchema 0]> ∅.

(** The node [ReasoningNode("user_prompt", ["refined_prompt"], cfg)]. *)
Definition node_of (cfg : gmap string value) : Node :=
  {| base := {| node_name := "PromptRefiner"; node_type := "node";
                input := "user_prompt"; output := ["refined_prompt"];
                min_input_len := 2; node_config := Some cfg |};
     llm_model := default VNone (cfg !! "llm_model");
     verbose := default (VBool false) (cfg !! "verbose");
     force := default (VBool false) (cfg !! "force");
     additional_info := default VNone (cfg !! "additional_info");
     output_schema := default VNone (cfg !! "schema");
     simplefied_schema := None |}.

(** The store [w0] with a node at location 20 and two state dictionaries
    of equal content [d] at locations 10 and 11. *)
Definition world_of (nd : Node) (d : gmap string value) : World :=
  {| dicts := <[10%positive := d]> (<[11%positive := d]> ∅);
     llms := llms w0;
     nodes := <[20%positive := nd]> ∅;
     calls := [] |}.

Definition state_without_prompt : gmap string value :=
  <["url" := VStr "https://example.com/shop"]> ∅.

Definition request : value := VStr "extract product names and prices".

Definition plain : gmap string value := config 1%positive.

Definition informed : gmap string value :=
  with_info (VStr "prices are in euro") (config 1%positive).

Definition blank : gmap string value := with_info (VStr "") (config 1%positive).

Definition before_first_call : World := world_of (node_of plain) state0.

Definition after_first_call : World :=
  (execute 20%positive 10%positive before_first_call).2.

(** The store after [ReasoningNode("user_prompt", ["refined_prompt"], plain)]. *)
Definition constructed : World :=
  (ReasoningNode "user_prompt" ["refined_prompt"] (Some plain) "PromptRefiner" w0).2.

(** [nd] with no output key. *)
Definition without_outputs (nd : Node) : Node :=
  {| base := {| node_name := node_name (base nd); node_type := node_type (base nd);
                input := input (base nd); output := [];
                min_input_len := min_input_len (base nd);
                node_config := node_config (base nd) |};
     llm_model := llm_model nd; verbose := verbose nd; force := force nd;
     additional_info := additional_info nd; output_schema := output_schema nd;
     simplefied_schema := simplefied_schema nd |}.

(** [nd] with both flags set and a stale cached schema. *)
Definition flagged (nd : Node) : Node :=
  {| base := base nd; llm_model := llm_model nd;
     verbose := VBool true; force := VBool true;
     additional_info := additional_info nd; output_schema := output_schema nd;
     simplefied_schema := Some (VStr "stale") |}.

Definition config_failing_schema : gmap string value :=
  <["schema" := VSchema 2]> (config 1%positive).

Definition config_with_model_name : gmap string value :=
  <["llm_model" := VStr "gpt-4o-mini"]> (config 1%positive).

Definition falsy : gmap string value := with_info (VBool false) (config 1%positive).

(** The store left by one execution of the node configured by [informed]. *)
Definition after_informed_call : World :=
  (execute 20%positive 10%positive (world_of (node_of informed) state0)).2.

End Stub.

(** * Properties *)

Section Properties.
Context `{Ext : Externals}.

(** ** Running computations step by step *)

Ltac run :=
  repeat progress
    (unfold bind, ret, raise, lift, call, record, attr, getitem, update, first, schema,
            dangling, new_PromptTemplate, set_simplefied_schema, get_simplefied_schema,
            subscript, get, isinstance_ChatOllama, set_format, BaseNode__init__,
            with_calls, with_dicts, with_nodes, with_llms;
     cbn [nodes dicts llms calls
          base llm_model verbose force additional_info output_schema simplefied_schema
          with_simplefied_schema node_name output fst snd default]).

Lemma append_empty_r (s : string) : s +:+ "" = s.
Proof.
  induction s as [| c s IH]; [reflexivity |].
  change (String c (s +:+ "") = String c s). by rewrite IH.
Qed.

Lemma append_empty_l (s : string) : "" +:+ s = s.
Proof. reflexivity. Qed.

(** The variables bound for the context-aware template. *)
Lemma lookup_context_variables (a b c : value) :
  let vars : gmap string value :=
    <["user_input" := a]> (<["json_schema" := b]> (<["additional_context" := c]> ∅)) in
  vars !! "user_input" = Some a /\
  vars !! "json_schema" = Some b /\
  vars !! "additional_context" = Some c.
Proof. repeat split; by simplify_map_eq. Qed.

Lemma pieces_TEMPLATE_REASONING :
  exists a b c,
    pieces TEMPLATE_REASONING
    = inr [Lit a; Field "user_input"; Lit b; Field "json_schema"; Lit c].
Proof. do 3 eexists. vm_compute. reflexivity. Qed.

Lemma pieces_TEMPLATE_REASONING_WITH_CONTEXT :
  exists a b c d,
    pieces TEMPLATE_REASONING_WITH_CONTEXT
    = inr [Lit a; Field "user_input"; Lit b; Field "json_schema"; Lit c;
           Field "additional_context"; Lit d]
    /\ c = ADDITIONAL_CONTEXT_HEADING.
Proof. do 4 eexists. split; vm_compute; reflexivity. Qed.

(** Rendering the prompt an execution builds never fails: every field of
    the selected template is bound. *)
Lemma render_selected_prompt (info up t : value) :
  render (selected_prompt info up t) = inr (prompt_text info up t).
Proof.
  unfold prompt_text.
  assert (exists text, render (selected_prompt info up t) = inr text) as [text ->];
    [| reflexivity].
  unfold render, selected_prompt, selected_template.
  destruct (is_not_None info); cbn [template partial_variables].
  - destruct pieces_TEMPLATE_REASONING_WITH_CONTEXT as (a & b & c & d & -> & _).
    cbn [fill]. simplify_map_eq. eauto.
  - destruct pieces_TEMPLATE_REASONING as (a & b & c & ->).
    cbn [fill]. simplify_map_eq. eauto.
Qed.

Section Run.
Variables (self st l : loc) (w : World) (nd : Node) (d : gmap string value).
Variables (up sd t : value) (c : nat) (client : ChatModel).
Hypothesis Hnode : nodes w !! self = Some nd.
Hypothesis Hstate : dicts w !! st = Some d.
Hypothesis Hprompt : d !! "user_prompt" = Some up.
Hypothesis Hschema : output_schema nd = VSchema c.
Hypothesis Hdescr : schema_description c = inr sd.
Hypothesis Htransform : transform_schema sd = inr t.
Hypothesis Hllm : llm_model nd = VLlm l.
Hypothesis Hclient : llms w !! l = Some client.

Let info := additional_info nd.
Let text := prompt_text info up t.
Let evs : list event :=
  [logger_line nd; SchemaDescription c; TransformSchema sd;
   NewPromptTemplate (selected_prompt info up t); LlmInvoke l text].

Lemma execute_run :
  execute self st w =
  match invoke_llm client text with
  | inl e =>
      (inl e,
       {| dicts := dicts w; llms := llms w;
          nodes := <[self := with_simplefied_schema nd t]> (nodes w);
          calls := calls w ++ evs |})
  | inr raw =>
      match output (base nd) with
      | [] =>
          (inl (IndexError "list index out of range"),
           {| dicts := dicts w; llms := llms w;
              nodes := <[self := with_simplefied_schema nd t]> (nodes w);
              calls := calls w ++ evs ++ [ParseOutput raw] |})
      | k :: _ =>
          (inr st,
           {| dicts := <[st := <[k := VStr (parse_output raw)]> d]> (dicts w);
              llms := llms w;
              nodes := <[self := with_simplefied_schema nd t]> (nodes w);
              calls := calls w ++ evs ++ [ParseOutput raw] |})
      end
  end.
Proof.
  pose proof (render_selected_prompt info up t) as Hrender.
  unfold execute, invoke_chain, logger_line, evs, text, info in *.
  unfold selected_prompt, selected_template in *.
  destruct (is_not_None (additional_info nd)) eqn:E;
    cbn [template partial_variables] in Hrender;
    do 12 (run; rewrite ?Hnode, ?Hstate, ?Hprompt, ?Hschema, ?Hdescr, ?Htransform,
             ?Hllm, ?Hclient, ?Hrender, ?E, ?lookup_insert_eq);
    (destruct (invoke_llm client _) as [e | raw]; [| destruct (output (base nd)) eqn:Hout]);
    do 3 (run; rewrite ?Hstate, ?Hout, ?lookup_insert_eq);
    rewrite <- ?app_assoc; reflexivity.
Qed.


End Run.

Lemma execute_no_user_prompt (self st : loc) (w : World) (nd : Node)
    (d : gmap string value) :
  nodes w !! self = Some nd ->
  dicts w !! st = Some d ->
  d !! "user_prompt" = None ->
  execute self st w =
  (inl (KeyError "user_prompt"),
   {| dicts := dicts w; llms := llms w; nodes := nodes w;
      calls := calls w ++ [logger_line nd] |}).
Proof.
  intros Hnode Hstate Hprompt. unfold execute, logger_line.
  do 3 (run; rewrite ?Hnode, ?Hstate, ?Hprompt). reflexivity.
Qed.

(** *** The constructor *)

Lemma init_attributes (inp : string) (out : list string) (cfg : gmap string value)
    (name : string) (w w' : World) (nd : Node) :
  __init__ inp out (Some cfg) name w = (inr nd, w') ->
  cfg !! "llm_model" = Some (llm_model nd) /\
  additional_info nd = default VNone (cfg !! "additional_info") /\
  output_schema nd = default VNone (cfg !! "schema") /\
  output (base nd) = out /\
  node_name (base nd) = name /\
  simplefied_schema nd = None.
Proof.
  unfold __init__. run.
  destruct (cfg !! "llm_model") as [v |] eqn:Hv; [| discriminate].
  destruct v; try (intros [= <- _]; cbn; auto 10);
    destruct (llms w !! l) eqn:Hl; [| discriminate];
    destruct (is_ChatOllama _); run; rewrite ?Hl; intros [= <- _]; cbn; auto 10.
Qed.

Lemma init_without_client (inp : string) (out : list string) (cfg : gmap string value)
    (name : string) (w : World) :
  cfg !! "llm_model" = None ->
  __init__ inp out (Some cfg) name w = (inl (KeyError "llm_model"), w).
Proof. intros H. unfold __init__. run. rewrite H. reflexivity. Qed.

Lemma init_with_client (inp : string) (out : list string) (cfg : gmap string value)
    (name : string) (w : World) (l : loc) (client : ChatModel) :
  cfg !! "llm_model" = Some (VLlm l) ->
  llms w !! l = Some client ->
  exists nd,
    __init__ inp out (Some cfg) name w =
    (inr nd,
     {| dicts := dicts w;
        llms := if is_ChatOllama (cls client)
                then <[l := with_format client "json"]> (llms w) else llms w;
        nodes := nodes w; calls := calls w |}).
Proof.
  intros Hcfg Hl. unfold __init__. do 2 (run; rewrite ?Hcfg, ?Hl).
  destruct (is_ChatOllama (cls client)); run; rewrite ?Hl; eexists; try reflexivity.
  destruct w; reflexivity.
Qed.

Lemma construct_run (inp : string) (out : list string)
    (cfg : option (gmap string value)) (name : string) (w : World) :
  ReasoningNode inp out cfg name w =
  match __init__ inp out cfg name w with
  | (inr nd, w') =>
      (inr (fresh (dom (nodes w'))),
       {| dicts := dicts w'; llms := llms w';
          nodes := <[fresh (dom (nodes w')) := nd]> (nodes w'); calls := calls w' |})
  | (inl e, w') => (inl e, w')
  end.
Proof.
  unfold ReasoningNode, bind.
  destruct (__init__ inp out cfg name w) as [[e | nd] w']; reflexivity.
Qed.

(** ** The node against its specification *)

(** C2: when the state holds [user_prompt] and the collaborators answer,
    [execute] returns the state object it was given; that dictionary is the
    old one with exactly the node's first output key set to the parsed text
    of the model's answer, every other key keeps its value, and no other
    dictionary of the store changes. *)
Theorem execute_updates_one_key
    (self st l : loc) (w : World) (nd : Node) (d : gmap string value)
    (up sd t : value) (c : nat) (client : ChatModel) (raw : message)
    (key : string) (keys : list string) :
  nodes w !! self = Some nd ->
  dicts w !! st = Some d ->
  d !! "user_prompt" = Some up ->
  output_schema nd = VSchema c ->
  schema_description c = inr sd ->
  transform_schema sd = inr t ->
  llm_model nd = VLlm l ->
  llms w !! l = Some client ->
  invoke_llm client (prompt_text (additional_info nd) up t) = inr raw ->
  output (base nd) = key :: keys ->
  exists w' d',
    execute self st w = (inr st, w') /\
    dicts w' !! st = Some d' /\
    d' = <[key := VStr (parse_output raw)]> d /\
    (forall k, k <> key -> d' !! k = d !! k) /\
    (forall st', st' <> st -> dicts w' !! st' = dicts w !! st').
Proof.
  intros Hnode Hstate Hprompt Hschema Hdescr Htransform Hllm Hclient Hraw Hout.
  rewrite (execute_run self st l w nd d up sd t c client) by assumption.
  rewrite Hraw, Hout.
  eexists _, _. split; [reflexivity |]. cbn [dicts].
  split; [apply lookup_insert_eq |]. split; [reflexivity |].
  split; intros ? ?; by rewrite lookup_insert_ne.
Qed.

(** C3: on a state without [user_prompt], [execute] raises the key error
    for [user_prompt]; only the logger line was emitted before: neither the
    transform nor the model client was invoked, and the store is unchanged. *)
Theorem execute_missing_user_prompt
    (self st : loc) (w : World) (nd : Node) (d : gmap string value) :
  nodes w !! self = Some nd ->
  dicts w !! st = Some d ->
  d !! "user_prompt" = None ->
  exists w' new,
    execute self st w = (inl (KeyError "user_prompt"), w') /\
    calls w' = calls w ++ new /\
    new = [logger_line nd] /\
    transforms new = [] /\
    llm_calls new = [] /\
    dicts w' = dicts w /\ llms w' = llms w /\ nodes w' = nodes w.
Proof.
  intros Hnode Hstate Hprompt.
  rewrite (execute_no_user_prompt self st w nd d) by assumption.
  eexists _, _. repeat split; reflexivity.
Qed.


(** C6: the prompt built by an execution binds [json_schema] to
    [str(transform_schema(schema.schema()))]; the transform is applied once,
    to the schema's description; and in the text sent to the model that
    string stands where the template has its [json_schema] field. *)
Theorem prompt_carries_simplified_schema
    (self st l : loc) (w : World) (nd : Node) (d : gmap string value)
    (up sd t : value) (c : nat) (client : ChatModel) :
  nodes w !! self = Some nd ->
  dicts w !! st = Some d ->
  d !! "user_prompt" = Some up ->
  output_schema nd = VSchema c ->
  schema_description c = inr sd ->
  transform_schema sd = inr t ->
  llm_model nd = VLlm l ->
  llms w !! l = Some client ->
  exists new p text a b rest tail,
    calls (execute self st w).2 = calls w ++ new /\
    transforms new = [sd] /\
    prompts new = [p] /\
    partial_variables p !! "json_schema" = Some (VStr (py_str t)) /\
    llm_calls new = [(l, text)] /\
    render p = inr text /\
    pieces (template p)
    = inr (Lit a :: Field "user_input" :: Lit b :: Field "json_schema" :: rest) /\
    fill rest (partial_variables p) = inr tail /\
    text = a +:+ py_str up +:+ b +:+ py_str t +:+ tail.
Proof.
  intros Hnode Hstate Hprompt Hschema Hdescr Htransform Hllm Hclient.
  rewrite (execute_run self st l w nd d up sd t c client) by assumption.
  pose proof (render_selected_prompt (additional_info nd) up t) as Hrender.
  set (text := prompt_text (additional_info nd) up t) in *. clearbody text.
  assert (exists a b rest tail,
    partial_variables (selected_prompt (additional_info nd) up t) !! "json_schema"
    = Some (VStr (py_str t)) /\
    pieces (template (selected_prompt (additional_info nd) up t))
    = inr (Lit a :: Field "user_input" :: Lit b :: Field "json_schema" :: rest) /\
    fill rest (partial_variables (selected_prompt (additional_info nd) up t)) = inr tail /\
    text = a +:+ py_str up +:+ b +:+ py_str t +:+ tail) as (a & b & rest & tail & H).
  { revert Hrender. unfold render, selected_prompt, selected_template.
    destruct (is_not_None (additional_info nd)); cbn [template partial_variables].
    - destruct pieces_TEMPLATE_REASONING_WITH_CONTEXT as (a & b & c' & d' & -> & _).
      cbn [fill]. simplify_map_eq. intros [= <-]. eexists _, _, _, _. eauto.
    - destruct pieces_TEMPLATE_REASONING as (a & b & c' & ->).
      cbn [fill]. simplify_map_eq. intros [= <-]. eexists _, _, _, _. eauto. }
  destruct H as (Hvar & Hpieces & Hfill & Htext).
  exists ([logger_line nd; SchemaDescription c; TransformSchema sd;
           NewPromptTemplate (selected_prompt (additional_info nd) up t);
           LlmInvoke l text]
          ++ match invoke_llm client text with
             | inl _ => []
             | inr raw => [ParseOutput raw]
             end).
  exists (selected_prompt (additional_info nd) up t), text, a, b, rest, tail.
  split.
  { destruct (invoke_llm client text); [| destruct (output (base nd))];
      cbn [snd calls]; by rewrite ?app_nil_r. }
  destruct (invoke_llm client text); auto 10.
Qed.

(** C8: with [additional_info] left at [None] and [user_prompt] present, one
    call of [execute] calls the schema transform exactly once and the model
    client exactly once. *)
Theorem execute_calls_each_collaborator_once
    (self st l : loc) (w : World) (nd : Node) (d : gmap string value)
    (up sd t : value) (c : nat) (client : ChatModel) :
  additional_info nd = VNone ->
  nodes w !! self = Some nd ->
  dicts w !! st = Some d ->
  d !! "user_prompt" = Some up ->
  output_schema nd = VSchema c ->
  schema_description c = inr sd ->
  transform_schema sd = inr t ->
  llm_model nd = VLlm l ->
  llms w !! l = Some client ->
  exists new,
    calls (execute self st w).2 = calls w ++ new /\
    transforms new = [sd] /\
    llm_calls new = [(l, prompt_text VNone up t)] /\
    length (transforms new) = 1 /\
    length (llm_calls new) = 1.
Proof.
  intros Hinfo Hnode Hstate Hprompt Hschema Hdescr Htransform Hllm Hclient.
  rewrite (execute_run self st l w nd d up sd t c client) by assumption.
  rewrite Hinfo.
  destruct (invoke_llm client _); [| destruct (output (base nd))];
    eexists; (split; [reflexivity |]); auto.
Qed.

Ltac one_side Hn Hd E :=
  do 4 (run; rewrite ?Hn, ?Hd, ?E, ?lookup_insert_eq).

Ltac logged Hn Hd E :=
  one_side Hn Hd E; rewrite <- ?app_assoc; eexists; (split; [reflexivity |]);
  reflexivity.

(** However an execution ends, the prompts it has constructed are those of
    [built_prompts]. *)
Lemma execute_prompts (self st : loc) (w : World) (nd : Node) (d : gmap string value) :
  nodes w !! self = Some nd ->
  dicts w !! st = Some d ->
  exists new,
    calls (execute self st w).2 = calls w ++ new /\
    prompts new = built_prompts nd d.
Proof.
  intros Hn Hd.
  unfold execute, invoke_chain, built_prompts, selected_prompt, selected_template.
  destruct nd as [bn llm ? ? info sch ?].
  cbn [base llm_model additional_info output_schema] in *.
  destruct (is_not_None info) eqn:E;
    one_side Hn Hd E;
    (destruct (d !! "user_prompt") as [up |]; [| logged Hn Hd E]);
    one_side Hn Hd E;
    (destruct sch as [| | | | | | | c]; try logged Hn Hd E);
    (destruct (schema_description c) as [e | sd]; [logged Hn Hd E |]);
    one_side Hn Hd E;
    (destruct (transform_schema sd) as [e | t]; [logged Hn Hd E |]);
    one_side Hn Hd E;
    (destruct llm as [| | | | | | l |]; try logged Hn Hd E);
    one_side Hn Hd E;
    (destruct (render _) as [e | text]; [logged Hn Hd E |]);
    one_side Hn Hd E;
    (destruct (llms w !! l) as [client |]; [| logged Hn Hd E]);
    one_side Hn Hd E;
    (destruct (invoke_llm client text) as [e | raw]; [logged Hn Hd E |]);
    one_side Hn Hd E;
    (destruct (output bn) as [| key keys]; logged Hn Hd E).
Qed.

(** *** Every path of an execution *)

Ltac shaped Hn Hd E :=
  one_side Hn Hd E; rewrite <- ?app_assoc; intros [= <- <-]; cbn [fst snd llms calls nodes dicts];
  split; [reflexivity |];
  split; [eexists; split; [reflexivity |];
          cbn -[TEMPLATE_REASONING TEMPLATE_REASONING_WITH_CONTEXT];
          repeat split; (lia || congruence) |];
  split; [(left; reflexivity) || (right; eexists; reflexivity) |];
  (reflexivity || (split; [reflexivity |]; eexists _, _; reflexivity)).

(** Whatever the path an execution takes: the clients are not touched; the
    log grows by the logger line and then at most one transform call and at
    most one client call, the latter only after the former and after the
    prompt was built; the node keeps its attributes, the cached schema
    apart; and the dictionaries change only when the call returns. *)
Lemma execute_shape (self st : loc) (w : World) (nd : Node) (d : gmap string value) :
  nodes w !! self = Some nd ->
  dicts w !! st = Some d ->
  llms (execute self st w).2 = llms w /\
  (exists new,
     calls (execute self st w).2 = calls w ++ logger_line nd :: new /\
     length (transforms new) <= 1 /\
     length (llm_calls new) <= 1 /\
     (llm_calls new <> [] -> length (transforms new) = 1 /\ length (prompts new) = 1)) /\
  (nodes (execute self st w).2 = nodes w \/
   exists t, nodes (execute self st w).2 = <[self := with_simplefied_schema nd t]> (nodes w)) /\
  match (execute self st w).1 with
  | inl _ => dicts (execute self st w).2 = dicts w
  | inr st' =>
      st' = st /\
      exists key text,
        dicts (execute self st w).2 = <[st := <[key := VStr text]> d]> (dicts w)
  end.
Proof.
  intros Hn Hd.
  destruct (execute self st w) as [r W] eqn:Hex. revert Hex.
  unfold execute, invoke_chain, logger_line.
  destruct nd as [bn llm vb fc info sch cache].
  cbn [base llm_model additional_info output_schema] in *.
  assert (exists b, is_not_None info = b) as [b E] by eauto.
  one_side Hn Hd E.
  destruct (d !! "user_prompt") as [up |]; [| shaped Hn Hd E].
  one_side Hn Hd E.
  destruct sch as [| | | | | | | c]; try shaped Hn Hd E.
  destruct (schema_description c) as [e | sd]; [shaped Hn Hd E |].
  one_side Hn Hd E.
  destruct (transform_schema sd) as [e | t]; [shaped Hn Hd E |].
  one_side Hn Hd E.
  destruct llm as [| | | | | | l |];
    [destruct b; shaped Hn Hd E .. | | destruct b; shaped Hn Hd E].
  destruct b;
    one_side Hn Hd E;
    (destruct (render _) as [e | text]; [shaped Hn Hd E |]);
    one_side Hn Hd E;
    (destruct (llms w !! l) as [client |]; [| shaped Hn Hd E]);
    one_side Hn Hd E;
    (destruct (invoke_llm client text) as [e | raw]; [shaped Hn Hd E |]);
    one_side Hn Hd E;
    (destruct (output bn) as [| key keys]; shaped Hn Hd E).
Qed.

Ltac both_sides Hn1 Hn2 Hd1 Hd2 Hout Hl E :=
  do 4 (run;
        rewrite ?Hn1, ?Hn2, ?Hd1, ?Hd2, <- ?Hout, <- ?Hl, ?E, ?lookup_insert_eq).

Ltac agree Hn1 Hn2 Hd1 Hd2 Hout Hl E :=
  both_sides Hn1 Hn2 Hd1 Hd2 Hout Hl E; cbn [same_result]; auto.

(** C9: the result of [execute] and the state it leaves are functions of
    the node's configuration, the content of the state and the clients: two
    executions that agree on these (whatever the earlier calls, the cached
    simplified schema, the call log or the other objects of the store) raise
    the same exception or both return their state, and leave equal states,
    hence equal output text. *)
Theorem execute_deterministic
    (self1 self2 st1 st2 : loc) (w1 w2 : World) (nd1 nd2 : Node)
    (d : gmap string value) :
  nodes w1 !! self1 = Some nd1 ->
  nodes w2 !! self2 = Some nd2 ->
  output (base nd1) = output (base nd2) ->
  llm_model nd1 = llm_model nd2 ->
  additional_info nd1 = additional_info nd2 ->
  output_schema nd1 = output_schema nd2 ->
  llms w1 = llms w2 ->
  dicts w1 !! st1 = Some d ->
  dicts w2 !! st2 = Some d ->
  same_result st1 st2 (execute self1 st1 w1).1 (execute self2 st2 w2).1 /\
  dicts (execute self1 st1 w1).2 !! st1 = dicts (execute self2 st2 w2).2 !! st2.
Proof.
  intros Hn1 Hn2 Hout Hllm Hinfo Hsch Hl Hd1 Hd2.
  destruct nd1 as [b1 llm ? ? info sch ?], nd2 as [b2 llm2 ? ? info2 sch2 ?].
  cbn [base llm_model additional_info output_schema] in Hout, Hllm, Hinfo, Hsch.
  subst llm2 info2 sch2. unfold execute, invoke_chain.
  assert (exists b, is_not_None info = b) as [b E] by eauto.
  both_sides Hn1 Hn2 Hd1 Hd2 Hout Hl E.
  destruct (d !! "user_prompt") as [up |]; [| agree Hn1 Hn2 Hd1 Hd2 Hout Hl E].
  both_sides Hn1 Hn2 Hd1 Hd2 Hout Hl E.
  destruct sch as [| | | | | | | c]; try agree Hn1 Hn2 Hd1 Hd2 Hout Hl E.
  destruct (schema_description c) as [e | sd]; [agree Hn1 Hn2 Hd1 Hd2 Hout Hl E |].
  both_sides Hn1 Hn2 Hd1 Hd2 Hout Hl E.
  destruct (transform_schema sd) as [e | t]; [agree Hn1 Hn2 Hd1 Hd2 Hout Hl E |].
  both_sides Hn1 Hn2 Hd1 Hd2 Hout Hl E.
  destruct b;
    both_sides Hn1 Hn2 Hd1 Hd2 Hout Hl E;
    (destruct llm as [| | | | | | l |]; try agree Hn1 Hn2 Hd1 Hd2 Hout Hl E);
    (destruct (render _) as [e | text]; [agree Hn1 Hn2 Hd1 Hd2 Hout Hl E |]);
    both_sides Hn1 Hn2 Hd1 Hd2 Hout Hl E;
    (destruct (llms w1 !! l) as [client |]; [| agree Hn1 Hn2 Hd1 Hd2 Hout Hl E]);
    both_sides Hn1 Hn2 Hd1 Hd2 Hout Hl E;
    (destruct (invoke_llm client text) as [e | raw]; [agree Hn1 Hn2 Hd1 Hd2 Hout Hl E |]);
    both_sides Hn1 Hn2 Hd1 Hd2 Hout Hl E;
    (destruct (output b1) as [| key keys]; agree Hn1 Hn2 Hd1 Hd2 Hout Hl E).
Qed.

(** C1: one execution constructs at most one prompt, and exactly one once
    it has read the user's prompt and simplified the schema.  The template
    of that prompt is fixed by the configuration the node was constructed
    from: the base template when [additional_info] is absent (or [None]),
    the context-aware template, the only one with an Additional Context
    section, when it is configured.  The state plays no part in the choice,
    and neither do earlier executions: the node in the store need only
    carry the [additional_info] it was constructed with, which every
    execution preserves. *)
Theorem template_selected_by_configuration
    (inp : string) (out : list string) (cfg : gmap string value) (name : string)
    (w0 w1 w : World) (nd0 nd : Node) (self st : loc) (d : gmap string value) :
  __init__ inp out (Some cfg) name w0 = (inr nd0, w1) ->
  nodes w !! self = Some nd ->
  additional_info nd = additional_info nd0 ->
  dicts w !! st = Some d ->
  exists new chosen,
    calls (execute self st w).2 = calls w ++ new /\
    chosen = match cfg !! "additional_info" with
             | None | Some VNone => TEMPLATE_REASONING
             | Some _ => TEMPLATE_REASONING_WITH_CONTEXT
             end /\
    length (prompts new) <= 1 /\
    (forall p, p ∈ prompts new -> template p = chosen) /\
    (forall up c sd t,
       d !! "user_prompt" = Some up ->
       output_schema nd = VSchema c ->
       schema_description c = inr sd ->
       transform_schema sd = inr t ->
       exists p, prompts new = [p] /\ template p = chosen) /\
    contains TEMPLATE_REASONING_WITH_CONTEXT "**Additional Context**" = true /\
    contains TEMPLATE_REASONING "**Additional Context**" = false /\
    (exists nd',
       nodes (execute self st w).2 !! self = Some nd' /\
       additional_info nd' = additional_info nd0).
Proof.
  intros Hinit Hnode Hsame Hstate.
  apply init_attributes in Hinit as (_ & Hinfo & _).
  rewrite <- Hsame in Hinfo.
  destruct (execute_prompts self st w nd d Hnode Hstate) as (new & Hcalls & Hprompts).
  exists new, (selected_template (additional_info nd)).
  split; [exact Hcalls |].
  split.
  { rewrite Hinfo. unfold selected_template.
    by destruct (cfg !! "additional_info") as [[] |]. }
  rewrite Hprompts. unfold built_prompts.
  split; [| split; [| split; [| split; [| split]]]]; [| | | vm_compute; reflexivity ..|].
  - destruct (d !! "user_prompt"), (output_schema nd); cbn; try lia.
    destruct (schema_description c) as [| sd]; cbn; try lia.
    destruct (transform_schema sd); cbn; lia.
  - intros p.
    destruct (d !! "user_prompt"), (output_schema nd); try by intros ?%elem_of_nil.
    destruct (schema_description c) as [| sd]; try by intros ?%elem_of_nil.
    destruct (transform_schema sd); try by intros ?%elem_of_nil.
    by intros ->%list_elem_of_singleton.
  - intros up c sd t -> -> -> ->. eexists. split; reflexivity.
  - destruct (execute_shape self st w nd d Hnode Hstate) as (_ & _ & [-> | [t ->]] & _).
    + exists nd. by rewrite <- Hsame.
    + exists (with_simplefied_schema nd t). rewrite lookup_insert_eq.
      by rewrite <- Hsame.
Qed.

(** C4 (as amended): construction fails with the key error for [llm_model]
    whenever the configuration lacks it.  A configuration that has a client
    but no [schema] is accepted: the node is built, with [None] as its
    output schema. *)
Theorem constructor_requires_only_llm_model
    (inp : string) (out : list string) (cfg : gmap string value) (name : string)
    (w : World) :
  (cfg !! "llm_model" = None ->
   ReasoningNode inp out (Some cfg) name w = (inl (KeyError "llm_model"), w)) /\
  (forall l client,
     cfg !! "llm_model" = Some (VLlm l) ->
     llms w !! l = Some client ->
     cfg !! "schema" = None ->
     exists self w' nd,
       ReasoningNode inp out (Some cfg) name w = (inr self, w') /\
       nodes w' !! self = Some nd /\
       output_schema nd = VNone).
Proof.
  split.
  - intros H. rewrite construct_run, init_without_client by assumption. reflexivity.
  - intros l client Hcfg Hl Hschema.
    destruct (init_with_client inp out cfg name w l client Hcfg Hl) as [nd Hinit].
    rewrite construct_run, Hinit. eexists _, _, nd.
    split; [reflexivity |]. split; [apply lookup_insert_eq |].
    apply init_attributes in Hinit as (_ & _ & -> & _). by rewrite Hschema.
Qed.

(** C7: constructing a node over a [ChatOllama] client sets that client's
    [format] to [json], and nothing else of it; a client of any other class
    is left as it was, and so is every other client of the store.
    Construction invokes no collaborator, and the node it returns, which
    holds this very client, has not executed yet. *)
Theorem constructor_sets_json_format
    (inp : string) (out : list string) (cfg : gmap string value) (name : string)
    (w : World) (l : loc) (client : ChatModel) :
  cfg !! "llm_model" = Some (VLlm l) ->
  llms w !! l = Some client ->
  exists self w' nd,
    ReasoningNode inp out (Some cfg) name w = (inr self, w') /\
    (cls client = ChatOllama ->
     llms w' = <[l := with_format client "json"]> (llms w)) /\
    (cls client = ChatOllama ->
     exists client',
       llms w' !! l = Some client' /\
       format client' = Some "json" /\
       cls client' = cls client /\
       model client' = model client) /\
    (cls client <> ChatOllama -> llms w' = llms w) /\
    (forall l', l' <> l -> llms w' !! l' = llms w !! l') /\
    calls w' = calls w /\
    nodes w' !! self = Some nd /\
    llm_model nd = VLlm l /\
    simplefied_schema nd = None.
Proof.
  intros Hcfg Hl.
  destruct (init_with_client inp out cfg name w l client Hcfg Hl) as [nd Hinit].
  rewrite construct_run, Hinit. eexists _, _, nd.
  split; [reflexivity |]. cbn [llms calls nodes].
  apply init_attributes in Hinit as (Hm & _ & _ & _ & _ & Hs).
  rewrite Hcfg in Hm. injection Hm as <-.
  split; [by intros -> |].
  split.
  { intros Hc. rewrite Hc. cbn [is_ChatOllama].
    exists (with_format client "json"). split; [apply lookup_insert_eq |]. by cbn. }
  split; [intros Hne; by destruct (cls client) |].
  split.
  { intros l' Hne. destruct (is_ChatOllama (cls client)); [| done].
    by rewrite lookup_insert_ne. }
  repeat split; try done. apply lookup_insert_eq.
Qed.

(** C10: a node configured with the empty string as [additional_info]
    selects the context-aware template: its prompt binds
    [additional_context] to the empty string, and the text sent to the model
    has the Additional Context heading followed by nothing. *)
Theorem empty_additional_info_selects_context_template
    (inp : string) (out : list string) (cfg : gmap string value) (name : string)
    (w0 w1 w : World) (nd : Node) (self st l : loc) (d : gmap string value)
    (up sd t : value) (c : nat) (client : ChatModel) :
  cfg !! "additional_info" = Some (VStr "") ->
  __init__ inp out (Some cfg) name w0 = (inr nd, w1) ->
  nodes w !! self = Some nd ->
  dicts w !! st = Some d ->
  d !! "user_prompt" = Some up ->
  output_schema nd = VSchema c ->
  schema_description c = inr sd ->
  transform_schema sd = inr t ->
  llm_model nd = VLlm l ->
  llms w !! l = Some client ->
  exists new p text a b rest,
    calls (execute self st w).2 = calls w ++ new /\
    prompts new = [p] /\
    template p = TEMPLATE_REASONING_WITH_CONTEXT /\
    partial_variables p !! "additional_context" = Some (VStr "") /\
    llm_calls new = [(l, text)] /\
    pieces (template p)
    = inr [Lit a; Field "user_input"; Lit b; Field "json_schema";
           Lit ADDITIONAL_CONTEXT_HEADING; Field "additional_context"; Lit rest] /\
    text = a +:+ py_str up +:+ b +:+ py_str t +:+ ADDITIONAL_CONTEXT_HEADING +:+ rest.
Proof.
  intros Hcfg Hinit Hnode Hstate Hprompt Hschema Hdescr Htransform Hllm Hclient.
  apply init_attributes in Hinit as (_ & Hinfo & _).
  rewrite Hcfg in Hinfo. cbn [default] in Hinfo.
  rewrite (execute_run self st l w nd d up sd t c client) by assumption.
  rewrite Hinfo.
  destruct pieces_TEMPLATE_REASONING_WITH_CONTEXT as (a & b & c' & rest & Hpieces & ->).
  exists ([logger_line nd; SchemaDescription c; TransformSchema sd;
           NewPromptTemplate (selected_prompt (VStr "") up t);
           LlmInvoke l (prompt_text (VStr "") up t)]
          ++ match invoke_llm client (prompt_text (VStr "") up t) with
             | inl _ => []
             | inr raw => [ParseOutput raw]
             end).
  exists (selected_prompt (VStr "") up t), (prompt_text (VStr "") up t), a, b, rest.
  split.
  { destruct (invoke_llm client _); [| destruct (output (base nd))];
      cbn [snd calls]; by rewrite ?app_nil_r. }
  split; [by destruct (invoke_llm client _) |].
  split; [reflexivity |].
  destruct (lookup_context_variables up (VStr (py_str t)) (VStr "")) as (Hv1 & Hv2 & Hv3).
  split; [exact Hv3 |].
  split; [by destruct (invoke_llm client _) |].
  split; [exact Hpieces |].
  unfold prompt_text, render.
  change (template (selected_prompt (VStr "") up t))
    with TEMPLATE_REASONING_WITH_CONTEXT.
  rewrite Hpieces. cbn [selected_prompt partial_variables is_not_None fill].
  rewrite Hv1, Hv2, Hv3.
  cbn [py_str]. by rewrite append_empty_l, append_empty_r.
Qed.

(** ** Further behaviour of the constructor and of [execute] *)

(** *** Other ways an execution stops *)

Lemma execute_schema_missing (self st : loc) (w : World) (nd : Node)
    (d : gmap string value) (up : value) :
  nodes w !! self = Some nd ->
  dicts w !! st = Some d ->
  d !! "user_prompt" = Some up ->
  output_schema nd = VNone ->
  execute self st w =
  (inl (AttributeError "schema"),
   {| dicts := dicts w; llms := llms w; nodes := nodes w;
      calls := calls w ++ [logger_line nd] |}).
Proof.
  intros Hnode Hstate Hprompt Hschema. unfold execute, logger_line.
  do 4 (run; rewrite ?Hnode, ?Hstate, ?Hprompt, ?Hschema). reflexivity.
Qed.

Lemma execute_schema_raises (self st : loc) (w : World) (nd : Node)
    (d : gmap string value) (up : value) (c : nat) (e : exn) :
  nodes w !! self = Some nd ->
  dicts w !! st = Some d ->
  d !! "user_prompt" = Some up ->
  output_schema nd = VSchema c ->
  schema_description c = inl e ->
  execute self st w =
  (inl e,
   {| dicts := dicts w; llms := llms w; nodes := nodes w;
      calls := calls w ++ [logger_line nd; SchemaDescription c] |}).
Proof.
  intros Hnode Hstate Hprompt Hschema Hdescr. unfold execute, logger_line.
  do 5 (run; rewrite ?Hnode, ?Hstate, ?Hprompt, ?Hschema, ?Hdescr).
  rewrite <- ?app_assoc. reflexivity.
Qed.

Lemma execute_model_name (self st : loc) (w : World) (nd : Node)
    (d : gmap string value) (up sd t : value) (c : nat) (s : string) :
  nodes w !! self = Some nd ->
  dicts w !! st = Some d ->
  d !! "user_prompt" = Some up ->
  output_schema nd = VSchema c ->
  schema_description c = inr sd ->
  transform_schema sd = inr t ->
  llm_model nd = VStr s ->
  execute self st w =
  (inl (TypeError (not_runnable "str")),
   {| dicts := dicts w; llms := llms w;
      nodes := <[self := with_simplefied_schema nd t]> (nodes w);
      calls := calls w ++ [logger_line nd; SchemaDescription c; TransformSchema sd;
                           NewPromptTemplate (selected_prompt (additional_info nd) up t)] |}).
Proof.
  intros Hnode Hstate Hprompt Hschema Hdescr Htransform Hllm.
  unfold execute, invoke_chain, logger_line, selected_prompt, selected_template.
  destruct (is_not_None (additional_info nd)) eqn:E;
    do 10 (run; rewrite ?Hnode, ?Hstate, ?Hprompt, ?Hschema, ?Hdescr, ?Htransform,
             ?Hllm, ?E, ?lookup_insert_eq);
    rewrite <- ?app_assoc; reflexivity.
Qed.

(** *** The constructor, whatever the configuration *)

Lemma init_inversion (inp : string) (out : list string)
    (cfg : option (gmap string value)) (name : string) (w w' : World) (nd : Node) :
  __init__ inp out cfg name w = (inr nd, w') ->
  exists m,
    cfg = Some m /\
    nd = {| base := {| node_name := name; node_type := "node"; input := inp;
                       output := out; min_input_len := 2; node_config := Some m |};
            llm_model := default VNone (m !! "llm_model");
            verbose := default (VBool false) (m !! "verbose");
            force := default (VBool false) (m !! "force");
            additional_info := default VNone (m !! "additional_info");
            output_schema := default VNone (m !! "schema");
            simplefied_schema := None |} /\
    is_Some (m !! "llm_model") /\
    dicts w' = dicts w /\ nodes w' = nodes w /\ calls w' = calls w.
Proof.
  unfold __init__. destruct cfg as [m |]; run; [| discriminate].
  destruct (m !! "llm_model") as [v |] eqn:Hv; [| discriminate].
  destruct v as [| | | | | | l |];
    try (intros [= <- <-]; exists m; rewrite Hv; by eauto 10);
    destruct (llms w !! l) as [client |] eqn:Hl; [| discriminate];
    destruct (is_ChatOllama _); run; rewrite ?Hl;
    intros [= <- <-]; exists m; rewrite Hv; by eauto 10.
Qed.

(** X1: a node is constructed only from a configuration mapping that has
    [llm_model] (with no configuration at all the subscript fails first).
    The new node's [verbose] and [force] are the configured values or
    [False], never the [True] written for a missing configuration;
    [additional_info] and the schema are the configured values or [None];
    output keys and name are the arguments; no schema was simplified yet.
    Construction leaves the dictionaries, the call log and the nodes already
    in the store as they were. *)
Theorem constructed_node_attributes
    (inp : string) (out : list string) (cfg : option (gmap string value))
    (name : string) (w w' : World) (self : loc) :
  ReasoningNode inp out cfg name w = (inr self, w') ->
  exists m v nd,
    cfg = Some m /\
    m !! "llm_model" = Some v /\
    nodes w' !! self = Some nd /\
    llm_model nd = v /\
    verbose nd = default (VBool false) (m !! "verbose") /\
    force nd = default (VBool false) (m !! "force") /\
    additional_info nd = default VNone (m !! "additional_info") /\
    output_schema nd = default VNone (m !! "schema") /\
    output (base nd) = out /\
    node_name (base nd) = name /\
    min_input_len (base nd) = 2 /\
    simplefied_schema nd = None /\
    dicts w' = dicts w /\
    calls w' = calls w /\
    nodes w !! self = None /\
    (forall n, n <> self -> nodes w' !! n = nodes w !! n).
Proof.
  rewrite construct_run.
  destruct (__init__ inp out cfg name w) as [[e | nd] w1] eqn:Hinit; [discriminate |].
  intros [= <- <-].
  apply init_inversion in Hinit as (m & -> & -> & [v Hv] & Hd & Hn & Hc).
  exists m, v. eexists. cbn [nodes dicts calls]. rewrite Hv, Hn.
  split; [reflexivity |]. split; [reflexivity |].
  split; [apply lookup_insert_eq |]. cbn.
  repeat (split; [done |]).
  split.
  - apply not_elem_of_dom, is_fresh.
  - intros n Hne. by rewrite lookup_insert_ne.
Qed.

(** X2: a node constructed without [schema] fails at its first execution:
    once [user_prompt] has been read, calling [.schema()] on [None] raises
    an attribute error.  Neither the transform nor the client was called
    and the state is unchanged. *)
Theorem missing_schema_surfaces_in_execute
    (inp : string) (out : list string) (cfg : gmap string value) (name : string)
    (w : World) (l st : loc) (client : ChatModel) (d : gmap string value)
    (up : value) :
  cfg !! "llm_model" = Some (VLlm l) ->
  llms w !! l = Some client ->
  cfg !! "schema" = None ->
  dicts w !! st = Some d ->
  d !! "user_prompt" = Some up ->
  exists self w1 w2 new,
    ReasoningNode inp out (Some cfg) name w = (inr self, w1) /\
    execute self st w1 = (inl (AttributeError "schema"), w2) /\
    dicts w2 = dicts w /\
    calls w2 = calls w ++ new /\
    transforms new = [] /\
    llm_calls new = [].
Proof.
  intros Hcfg Hl Hschema Hstate Hprompt.
  destruct (init_with_client inp out cfg name w l client Hcfg Hl) as [nd Hinit].
  rewrite construct_run, Hinit.
  apply init_attributes in Hinit as (_ & _ & Hs & _).
  rewrite Hschema in Hs. cbn [default] in Hs.
  eexists _, _, _, _. split; [reflexivity |].
  split.
  { apply (execute_schema_missing _ st _ nd d up); cbn [nodes dicts];
      [apply lookup_insert_eq | done ..]. }
  cbn [dicts calls]. auto.
Qed.

(** X3: with an empty list of output keys the execution raises an index
    error only at the very end: the client has been invoked on the rendered
    prompt, its answer is dropped and the state is unchanged. *)
Theorem empty_output_list_loses_answer
    (self st l : loc) (w : World) (nd : Node) (d : gmap string value)
    (up sd t : value) (c : nat) (client : ChatModel) (raw : message) :
  nodes w !! self = Some nd ->
  dicts w !! st = Some d ->
  d !! "user_prompt" = Some up ->
  output_schema nd = VSchema c ->
  schema_description c = inr sd ->
  transform_schema sd = inr t ->
  llm_model nd = VLlm l ->
  llms w !! l = Some client ->
  invoke_llm client (prompt_text (additional_info nd) up t) = inr raw ->
  output (base nd) = [] ->
  exists w' new,
    execute self st w = (inl (IndexError "list index out of range"), w') /\
    dicts w' = dicts w /\
    calls w' = calls w ++ new /\
    llm_calls new = [(l, prompt_text (additional_info nd) up t)].
Proof.
  intros Hnode Hstate Hprompt Hschema Hdescr Htransform Hllm Hclient Hraw Hout.
  rewrite (execute_run self st l w nd d up sd t c client) by assumption.
  rewrite Hraw, Hout. eexists _, _. repeat split; reflexivity.
Qed.

(** X4: what an execution can change, however it ends.  The clients are
    untouched; dictionaries other than the state and nodes other than
    [self] are untouched; [self] keeps its base attributes, client, flags,
    additional context and schema (only the cached simplified schema may be
    set); and whenever the call raises, for whatever reason, no dictionary
    has changed. *)
Theorem execute_frame
    (self st : loc) (w : World) (nd : Node) (d : gmap string value) :
  nodes w !! self = Some nd ->
  dicts w !! st = Some d ->
  llms (execute self st w).2 = llms w /\
  (forall st', st' <> st -> dicts (execute self st w).2 !! st' = dicts w !! st') /\
  (forall n, n <> self -> nodes (execute self st w).2 !! n = nodes w !! n) /\
  (exists nd',
     nodes (execute self st w).2 !! self = Some nd' /\
     base nd' = base nd /\
     llm_model nd' = llm_model nd /\
     verbose nd' = verbose nd /\
     force nd' = force nd /\
     additional_info nd' = additional_info nd /\
     output_schema nd' = output_schema nd) /\
  (forall e, (execute self st w).1 = inl e -> dicts (execute self st w).2 = dicts w).
Proof.
  intros Hnode Hstate.
  destruct (execute_shape self st w nd d Hnode Hstate) as (Hl & _ & Hn & Hd).
  split; [exact Hl |].
  split.
  { intros st' Hne. destruct ((execute self st w).1).
    - by rewrite Hd.
    - destruct Hd as (_ & key & text & ->). by rewrite lookup_insert_ne. }
  split.
  { intros n Hne. destruct Hn as [-> | [t ->]]; [done |]. by rewrite lookup_insert_ne. }
  split.
  { destruct Hn as [-> | [t ->]].
    - exists nd. auto 10.
    - exists (with_simplefied_schema nd t). rewrite lookup_insert_eq. auto 10. }
  intros e He. by rewrite He in Hd.
Qed.


(** X6: executing a second time on the same state object changes nothing
    further, provided the output key is not [user_prompt]: the second call
    returns the state again and leaves dictionaries, nodes and clients as
    the first call left them. *)
Theorem execute_again_same_state
    (self st l : loc) (w : World) (nd : Node) (d : gmap string value)
    (up sd t : value) (c : nat) (client : ChatModel) (raw : message)
    (key : string) (keys : list string) :
  nodes w !! self = Some nd ->
  dicts w !! st = Some d ->
  d !! "user_prompt" = Some up ->
  output_schema nd = VSchema c ->
  schema_description c = inr sd ->
  transform_schema sd = inr t ->
  llm_model nd = VLlm l ->
  llms w !! l = Some client ->
  invoke_llm client (prompt_text (additional_info nd) up t) = inr raw ->
  output (base nd) = key :: keys ->
  key <> "user_prompt" ->
  exists w1 w2,
    execute self st w = (inr st, w1) /\
    execute self st w1 = (inr st, w2) /\
    dicts w2 = dicts w1 /\
    nodes w2 = nodes w1 /\
    llms w2 = llms w1.
Proof.
  intros Hnode Hstate Hprompt Hschema Hdescr Htransform Hllm Hclient Hraw Hout Hkey.
  rewrite (execute_run self st l w nd d up sd t c client) by assumption.
  rewrite Hraw, Hout. eexists _, _. split; [reflexivity |].
  rewrite (execute_run self st l _ (with_simplefied_schema nd t)
             (<[key := VStr (parse_output raw)]> d) up sd t c client);
    cbn [nodes dicts llms additional_info output_schema llm_model base
         with_simplefied_schema];
    rewrite ?lookup_insert_eq; try done.
  - rewrite Hraw, Hout. split; [reflexivity |]. cbn [dicts nodes llms].
    by rewrite !insert_insert_eq.
  - by rewrite lookup_insert_ne.
Qed.

(** X8: the response format forced by the constructor is the one the
    client has when the node executes: for a [ChatOllama] client, the text
    written to the state is the parsed answer of that client with [format]
    set to [json]. *)
Theorem json_format_reaches_client
    (inp : string) (key : string) (keys : list string) (cfg : gmap string value)
    (name : string) (w : World) (l st : loc) (client : ChatModel)
    (d : gmap string value) (up sd t : value) (c : nat) (raw : message) :
  cfg !! "llm_model" = Some (VLlm l) ->
  llms w !! l = Some client ->
  cls client = ChatOllama ->
  cfg !! "schema" = Some (VSchema c) ->
  schema_description c = inr sd ->
  transform_schema sd = inr t ->
  dicts w !! st = Some d ->
  d !! "user_prompt" = Some up ->
  invoke_llm (with_format client "json")
    (prompt_text (default VNone (cfg !! "additional_info")) up t) = inr raw ->
  exists self w1 w2,
    ReasoningNode inp (key :: keys) (Some cfg) name w = (inr self, w1) /\
    llms w1 !! l = Some (with_format client "json") /\
    execute self st w1 = (inr st, w2) /\
    dicts w2 !! st = Some (<[key := VStr (parse_output raw)]> d).
Proof.
  intros Hcfg Hl Hcls Hschema Hdescr Htransform Hstate Hprompt Hraw.
  destruct (init_with_client inp (key :: keys) cfg name w l client Hcfg Hl) as [nd Hinit].
  rewrite construct_run, Hinit. rewrite Hcls. cbn [is_ChatOllama].
  apply init_attributes in Hinit as (Hm & Hi & Hs & Ho & _).
  rewrite Hcfg in Hm. injection Hm as Hm. rewrite Hschema in Hs. cbn [default] in Hs.
  eexists _, _, _. split; [reflexivity |]. cbn [llms].
  split; [apply lookup_insert_eq |].
  rewrite (execute_run _ st l _ nd d up sd t c (with_format client "json"));
    cbn [nodes dicts llms]; rewrite ?lookup_insert_eq; try done.
  rewrite Hi, Hraw, Ho. split; [reflexivity |]. cbn [dicts]. apply lookup_insert_eq.
Qed.

(** X9: any configured [additional_info] that is a data value other than
    [None], a falsy one such as [False] or an empty string included,
    selects the context-aware template, and its [str()] is the text that
    follows the Additional Context heading in the prompt sent to the
    client.  (Callable values, which the renderer would call, are left
    out.) *)
Theorem configured_context_is_rendered
    (self st l : loc) (w : World) (nd : Node) (d : gmap string value)
    (up sd t : value) (c : nat) (client : ChatModel) :
  additional_info nd <> VNone ->
  is_data (additional_info nd) = true ->
  is_data up = true ->
  nodes w !! self = Some nd ->
  dicts w !! st = Some d ->
  d !! "user_prompt" = Some up ->
  output_schema nd = VSchema c ->
  schema_description c = inr sd ->
  transform_schema sd = inr t ->
  llm_model nd = VLlm l ->
  llms w !! l = Some client ->
  exists new p text a b rest,
    calls (execute self st w).2 = calls w ++ new /\
    prompts new = [p] /\
    template p = TEMPLATE_REASONING_WITH_CONTEXT /\
    partial_variables p !! "additional_context" = Some (additional_info nd) /\
    llm_calls new = [(l, text)] /\
    pieces (template p)
    = inr [Lit a; Field "user_input"; Lit b; Field "json_schema";
           Lit ADDITIONAL_CONTEXT_HEADING; Field "additional_context"; Lit rest] /\
    text = a +:+ py_str up +:+ b +:+ py_str t
           +:+ ADDITIONAL_CONTEXT_HEADING +:+ py_str (additional_info nd) +:+ rest.
Proof.
  intros Hinfo _ _ Hnode Hstate Hprompt Hschema Hdescr Htransform Hllm Hclient.
  rewrite (execute_run self st l w nd d up sd t c client) by assumption.
  assert (is_not_None (additional_info nd) = true) as E
    by (by destruct (additional_info nd)).
  destruct pieces_TEMPLATE_REASONING_WITH_CONTEXT as (a & b & c' & rest & Hpieces & ->).
  destruct (lookup_context_variables up (VStr (py_str t)) (additional_info nd))
    as (Hv1 & Hv2 & Hv3).
  assert (selected_prompt (additional_info nd) up t =
          {| template := TEMPLATE_REASONING_WITH_CONTEXT;
             partial_variables :=
               <["user_input" := up]>
                 (<["json_schema" := VStr (py_str t)]>
                    (<["additional_context" := additional_info nd]> ∅)) |}) as Hp
    by (unfold selected_prompt, selected_template; by rewrite E).
  exists ([logger_line nd; SchemaDescription c; TransformSchema sd;
           NewPromptTemplate (selected_prompt (additional_info nd) up t);
           LlmInvoke l (prompt_text (additional_info nd) up t)]
          ++ match invoke_llm client (prompt_text (additional_info nd) up t) with
             | inl _ => []
             | inr raw => [ParseOutput raw]
             end).
  exists (selected_prompt (additional_info nd) up t),
    (prompt_text (additional_info nd) up t), a, b, rest.
  split.
  { destruct (invoke_llm client _); [| destruct (output (base nd))];
      cbn [snd calls]; by rewrite ?app_nil_r. }
  split; [by destruct (invoke_llm client _) |].
  unfold prompt_text, render. rewrite Hp. cbn [template partial_variables].
  split; [reflexivity |].
  split; [exact Hv3 |].
  split; [by destruct (invoke_llm client _) |].
  split; [exact Hpieces |].
  rewrite Hpieces. cbn [fill]. rewrite Hv1, Hv2, Hv3.
  cbn [py_str]. by rewrite append_empty_r.
Qed.

(** X10: an exception raised by the schema's description method is the
    exception [execute] raises; the transform and the client are not called
    and neither the state nor the node has changed. *)
Theorem schema_failure_propagates
    (self st : loc) (w : World) (nd : Node) (d : gmap string value)
    (up : value) (c : nat) (e : exn) :
  nodes w !! self = Some nd ->
  dicts w !! st = Some d ->
  d !! "user_prompt" = Some up ->
  output_schema nd = VSchema c ->
  schema_description c = inl e ->
  exists w' new,
    execute self st w = (inl e, w') /\
    dicts w' = dicts w /\
    nodes w' = nodes w /\
    calls w' = calls w ++ new /\
    transforms new = [] /\
    llm_calls new = [].
Proof.
  intros Hnode Hstate Hprompt Hschema Hdescr.
  rewrite (execute_schema_raises self st w nd d up c e) by assumption.
  eexists _, _. repeat split; reflexivity.
Qed.

(** X11: the constructor does not check what [llm_model] is.  Configured
    with a string (a model name, say) the node is constructed, and its
    execution raises a type error when the chain is built: after the schema
    transform was called, before any client call, with the state
    unchanged. *)
Theorem model_name_fails_in_execute
    (inp : string) (out : list string) (cfg : gmap string value) (name : string)
    (w : World) (st : loc) (d : gmap string value) (up sd t : value) (c : nat)
    (s : string) :
  cfg !! "llm_model" = Some (VStr s) ->
  cfg !! "schema" = Some (VSchema c) ->
  schema_description c = inr sd ->
  transform_schema sd = inr t ->
  dicts w !! st = Some d ->
  d !! "user_prompt" = Some up ->
  exists self w1 w2 new msg,
    ReasoningNode inp out (Some cfg) name w = (inr self, w1) /\
    execute self st w1 = (inl (TypeError msg), w2) /\
    dicts w2 = dicts w /\
    calls w2 = calls w ++ new /\
    transforms new = [sd] /\
    llm_calls new = [].
Proof.
  intros Hcfg Hschema Hdescr Htransform Hstate Hprompt.
  rewrite construct_run.
  destruct (__init__ inp out (Some cfg) name w) as [[e | nd] w1] eqn:Hinit.
  { exfalso. revert Hinit. unfold __init__. run. rewrite Hcfg. run. discriminate. }
  pose proof Hinit as Hattr.
  apply init_attributes in Hattr as (Hm & _ & Hs & _).
  rewrite Hcfg in Hm. injection Hm as Hm. rewrite Hschema in Hs. cbn [default] in Hs.
  apply init_inversion in Hinit as (_ & _ & _ & _ & Hd & Hn & Hc).
  eexists _, _, _, _, _. split; [reflexivity |].
  split.
  { apply (execute_model_name _ st _ nd d up sd t c s); cbn [nodes dicts];
      rewrite ?Hd; [apply lookup_insert_eq | done ..]. }
  cbn [dicts calls]. rewrite Hd, Hc. auto.
Qed.

Ltac same Hn Hd E :=
  one_side Hn Hd E; intros [= <- <-] [= <- <-]; repeat split; reflexivity.

(** X7: [execute] reads neither [verbose] nor [force] nor the simplified
    schema cached by an earlier call: replacing the node by one that differs
    only in these gives the same result, the same dictionaries, the same
    clients and the same call log. *)
Theorem execute_ignores_flags_and_cache
    (self st : loc) (w : World) (nd nd' : Node) (d : gmap string value) :
  nodes w !! self = Some nd ->
  dicts w !! st = Some d ->
  base nd' = base nd ->
  llm_model nd' = llm_model nd ->
  additional_info nd' = additional_info nd ->
  output_schema nd' = output_schema nd ->
  (execute self st (with_nodes (insert self nd') w)).1 = (execute self st w).1 /\
  dicts (execute self st (with_nodes (insert self nd') w)).2
  = dicts (execute self st w).2 /\
  llms (execute self st (with_nodes (insert self nd') w)).2
  = llms (execute self st w).2 /\
  calls (execute self st (with_nodes (insert self nd') w)).2
  = calls (execute self st w).2.
Proof.
  intros Hn Hd Hbase Hllm Hinfo Hsch.
  destruct nd as [bn llm vb fc info sch cache], nd' as [bn' llm' vb' fc' info' sch' cache'].
  cbn [base llm_model additional_info output_schema] in Hbase, Hllm, Hinfo, Hsch.
  subst bn' llm' info' sch'.
  destruct (execute self st w) as [r W] eqn:Hex.
  destruct (execute self st (with_nodes _ w)) as [r' W'] eqn:Hex'.
  revert Hex Hex'. unfold execute, invoke_chain.
  assert (exists b, is_not_None info = b) as [b E] by eauto.
  one_side Hn Hd E.
  destruct (d !! "user_prompt") as [up |]; [| same Hn Hd E].
  one_side Hn Hd E.
  destruct sch as [| | | | | | | c]; try same Hn Hd E.
  destruct (schema_description c) as [e | sd]; [same Hn Hd E |].
  one_side Hn Hd E.
  destruct (transform_schema sd) as [e | t]; [same Hn Hd E |].
  one_side Hn Hd E.
  destruct llm as [| | | | | | l |];
    [destruct b; same Hn Hd E .. | | destruct b; same Hn Hd E].
  destruct b;
    one_side Hn Hd E;
    (destruct (render _) as [e | text]; [same Hn Hd E |]);
    one_side Hn Hd E;
    (destruct (llms w !! l) as [client |]; [| same Hn Hd E]);
    one_side Hn Hd E;
    (destruct (invoke_llm client text) as [e | raw]; [same Hn Hd E |]);
    one_side Hn Hd E;
    (destruct (output bn) as [| key keys]; same Hn Hd E).
Qed.

End Properties.

(** * Concrete runs with the stub collaborators *)

Import Stub.

(** C4, counterexample: a configuration with a client and no schema is
    constructed without error. *)
Lemma constructor_accepts_missing_schema :
  config_without_schema !! "schema" = None /\
  (ReasoningNode "user_prompt" ["refined_prompt"] (Some config_without_schema)
     "PromptRefiner" w0).1 = inr 1%positive.
Proof. split; vm_compute; reflexivity. Qed.

(** A second execution, in the store the first one left. *)
Lemma template_selected_by_configuration_witness :
  exists new chosen,
    calls (execute 20%positive 11%positive after_informed_call).2
    = calls after_informed_call ++ new /\
    chosen = match informed !! "additional_info" with
             | None | Some VNone => TEMPLATE_REASONING
             | Some _ => TEMPLATE_REASONING_WITH_CONTEXT
             end /\
    length (prompts new) <= 1 /\
    (forall p, p ∈ prompts new -> template p = chosen) /\
    (forall up c sd t,
       state0 !! "user_prompt" = Some up ->
       output_schema (with_simplefied_schema (node_of informed) simplified) = VSchema c ->
       schema_description c = inr sd ->
       transform_schema sd = inr t ->
       exists p, prompts new = [p] /\ template p = chosen) /\
    contains TEMPLATE_REASONING_WITH_CONTEXT "**Additional Context**" = true /\
    contains TEMPLATE_REASONING "**Additional Context**" = false /\
    (exists nd',
       nodes (execute 20%positive 11%positive after_informed_call).2 !! 20%positive
       = Some nd' /\
       additional_info nd' = additional_info (node_of informed)).
Proof.
  apply (template_selected_by_configuration "user_prompt" ["refined_prompt"] informed
           "PromptRefiner" w0 w0 after_informed_call (node_of informed)
           (with_simplefied_schema (node_of informed) simplified)
           20%positive 11%positive state0);
    vm_compute; reflexivity.
Defined.

Lemma execute_updates_one_key_witness :
  exists w' d',
    execute 20%positive 10%positive (world_of (node_of plain) state0) = (inr 10%positive, w') /\
    dicts w' !! 10%positive = Some d' /\
    d' = <["refined_prompt" :=
             VStr "The request names products and prices; both are schema fields."]> state0 /\
    (forall k, k <> "refined_prompt" -> d' !! k = state0 !! k) /\
    (forall st', st' <> 10%positive ->
       dicts w' !! st' = dicts (world_of (node_of plain) state0) !! st').
Proof.
  apply (execute_updates_one_key 20%positive 10%positive 1%positive
           (world_of (node_of plain) state0) (node_of plain) state0
           request description simplified 0 openai
           "The request names products and prices; both are schema fields."
           "refined_prompt" []);
    vm_compute; reflexivity.
Defined.

Lemma execute_missing_user_prompt_witness :
  exists w' new,
    execute 20%positive 10%positive (world_of (node_of plain) state_without_prompt)
    = (inl (KeyError "user_prompt"), w') /\
    calls w' = calls (world_of (node_of plain) state_without_prompt) ++ new /\
    new = [logger_line (node_of plain)] /\
    transforms new = [] /\
    llm_calls new = [] /\
    dicts w' = dicts (world_of (node_of plain) state_without_prompt) /\
    llms w' = llms (world_of (node_of plain) state_without_prompt) /\
    nodes w' = nodes (world_of (node_of plain) state_without_prompt).
Proof.
  apply (execute_missing_user_prompt 20%positive 10%positive
           (world_of (node_of plain) state_without_prompt) (node_of plain)
           state_without_prompt);
    vm_compute; reflexivity.
Defined.


Lemma prompt_carries_simplified_schema_witness :
  exists new p text a b rest tail,
    calls (execute 20%positive 10%positive (world_of (node_of plain) state0)).2
    = calls (world_of (node_of plain) state0) ++ new /\
    transforms new = [description] /\
    prompts new = [p] /\
    partial_variables p !! "json_schema" = Some (VStr (py_str simplified)) /\
    llm_calls new = [(1%positive, text)] /\
    render p = inr text /\
    pieces (template p)
    = inr (Lit a :: Field "user_input" :: Lit b :: Field "json_schema" :: rest) /\
    fill rest (partial_variables p) = inr tail /\
    text = a +:+ py_str request +:+ b +:+ py_str simplified +:+ tail.
Proof.
  apply (prompt_carries_simplified_schema 20%positive 10%positive 1%positive
           (world_of (node_of plain) state0) (node_of plain) state0
           request description simplified 0 openai);
    vm_compute; reflexivity.
Defined.

Lemma constructor_sets_json_format_witness :
  exists self w' nd,
    ReasoningNode "user_prompt" ["refined_prompt"] (Some (config 2%positive))
      "PromptRefiner" w0 = (inr self, w') /\
    (cls ollama = ChatOllama ->
     llms w' = <[2%positive := with_format ollama "json"]> (llms w0)) /\
    (cls ollama = ChatOllama ->
     exists client',
       llms w' !! 2%positive = Some client' /\
       format client' = Some "json" /\
       cls client' = cls ollama /\
       model client' = model ollama) /\
    (cls ollama <> ChatOllama -> llms w' = llms w0) /\
    (forall l', l' <> 2%positive -> llms w' !! l' = llms w0 !! l') /\
    calls w' = calls w0 /\
    nodes w' !! self = Some nd /\
    llm_model nd = VLlm 2%positive /\
    simplefied_schema nd = None.
Proof.
  apply (constructor_sets_json_format "user_prompt" ["refined_prompt"]
           (config 2%positive) "PromptRefiner" w0 2%positive ollama);
    vm_compute; reflexivity.
Defined.

Lemma execute_calls_each_collaborator_once_witness :
  exists new,
    calls (execute 20%positive 10%positive (world_of (node_of plain) state0)).2
    = calls (world_of (node_of plain) state0) ++ new /\
    transforms new = [description] /\
    llm_calls new = [(1%positive, prompt_text VNone request simplified)] /\
    length (transforms new) = 1 /\
    length (llm_calls new) = 1.
Proof.
  apply (execute_calls_each_collaborator_once 20%positive 10%positive 1%positive
           (world_of (node_of plain) state0) (node_of plain) state0
           request description simplified 0 openai);
    vm_compute; reflexivity.
Defined.

(** Two calls in a row, on two state dictionaries of equal content: the
    second call runs in the store the first one left. *)
Lemma execute_deterministic_witness :
  same_result 10%positive 11%positive
    (execute 20%positive 10%positive before_first_call).1
    (execute 20%positive 11%positive after_first_call).1 /\
  dicts (execute 20%positive 10%positive before_first_call).2 !! 10%positive
  = dicts (execute 20%positive 11%positive after_first_call).2 !! 11%positive.
Proof.
  apply (execute_deterministic 20%positive 20%positive 10%positive 11%positive
           before_first_call after_first_call
           (node_of plain) (with_simplefied_schema (node_of plain) simplified) state0);
    vm_compute; reflexivity.
Defined.

Lemma empty_additional_info_selects_context_template_witness :
  exists new p text a b rest,
    calls (execute 20%positive 10%positive (world_of (node_of blank) state0)).2
    = calls (world_of (node_of blank) state0) ++ new /\
    prompts new = [p] /\
    template p = TEMPLATE_REASONING_WITH_CONTEXT /\
    partial_variables p !! "additional_context" = Some (VStr "") /\
    llm_calls new = [(1%positive, text)] /\
    pieces (template p)
    = inr [Lit a; Field "user_input"; Lit b; Field "json_schema";
           Lit ADDITIONAL_CONTEXT_HEADING; Field "additional_context"; Lit rest] /\
    text = a +:+ py_str request +:+ b +:+ py_str simplified
           +:+ ADDITIONAL_CONTEXT_HEADING +:+ rest.
Proof.
  apply (empty_additional_info_selects_context_template "user_prompt"
           ["refined_prompt"] blank "PromptRefiner" w0 w0
           (world_of (node_of blank) state0) (node_of blank)
           20%positive 10%positive 1%positive state0
           request description simplified 0 openai);
    vm_compute; reflexivity.
Defined.

Lemma constructor_requires_only_llm_model_witness :
  ReasoningNode "user_prompt" ["refined_prompt"] (Some config_without_client)
    "PromptRefiner" w0 = (inl (KeyError "llm_model"), w0) /\
  exists self w' nd,
    ReasoningNode "user_prompt" ["refined_prompt"] (Some config_without_schema)
      "PromptRefiner" w0 = (inr self, w') /\
    nodes w' !! self = Some nd /\
    output_schema nd = VNone.
Proof.
  split.
  - apply (proj1 (constructor_requires_only_llm_model "user_prompt" ["refined_prompt"]
                    config_without_client "PromptRefiner" w0)).
    vm_compute; reflexivity.
  - apply (proj2 (constructor_requires_only_llm_model "user_prompt" ["refined_prompt"]
                    config_without_schema "PromptRefiner" w0) 1%positive openai);
      vm_compute; reflexivity.
Defined.


(** ** Concrete runs for the further properties *)

Lemma constructed_node_attributes_witness :
  exists m v nd,
    Some plain = Some m /\
    m !! "llm_model" = Some v /\
    nodes constructed !! 1%positive = Some nd /\
    llm_model nd = v /\
    verbose nd = default (VBool false) (m !! "verbose") /\
    force nd = default (VBool false) (m !! "force") /\
    additional_info nd = default VNone (m !! "additional_info") /\
    output_schema nd = default VNone (m !! "schema") /\
    output (base nd) = ["refined_prompt"] /\
    node_name (base nd) = "PromptRefiner" /\
    min_input_len (base nd) = 2 /\
    simplefied_schema nd = None /\
    dicts constructed = dicts w0 /\
    calls constructed = calls w0 /\
    nodes w0 !! 1%positive = None /\
    (forall n, n <> 1%positive -> nodes constructed !! n = nodes w0 !! n).
Proof.
  apply (constructed_node_attributes "user_prompt" ["refined_prompt"] (Some plain)
           "PromptRefiner" w0 constructed 1%positive).
  vm_compute; reflexivity.
Defined.

Lemma missing_schema_surfaces_in_execute_witness :
  exists self w1 w2 new,
    ReasoningNode "user_prompt" ["refined_prompt"] (Some config_without_schema)
      "PromptRefiner" w0 = (inr self, w1) /\
    execute self 10%positive w1 = (inl (AttributeError "schema"), w2) /\
    dicts w2 = dicts w0 /\
    calls w2 = calls w0 ++ new /\
    transforms new = [] /\
    llm_calls new = [].
Proof.
  apply (missing_schema_surfaces_in_execute "user_prompt" ["refined_prompt"]
           config_without_schema "PromptRefiner" w0 1%positive 10%positive openai
           state0 request);
    vm_compute; reflexivity.
Defined.

Lemma empty_output_list_loses_answer_witness :
  exists w' new,
    execute 20%positive 10%positive (world_of (without_outputs (node_of plain)) state0)
    = (inl (IndexError "list index out of range"), w') /\
    dicts w' = dicts (world_of (without_outputs (node_of plain)) state0) /\
    calls w' = calls (world_of (without_outputs (node_of plain)) state0) ++ new /\
    llm_calls new
    = [(1%positive,
        prompt_text (additional_info (without_outputs (node_of plain)))
          request simplified)].
Proof.
  apply (empty_output_list_loses_answer 20%positive 10%positive 1%positive
           (world_of (without_outputs (node_of plain)) state0)
           (without_outputs (node_of plain)) state0 request description simplified 0
           openai "The request names products and prices; both are schema fields.");
    vm_compute; reflexivity.
Defined.

Lemma execute_frame_witness :
  llms (execute 20%positive 10%positive before_first_call).2 = llms before_first_call /\
  (forall st', st' <> 10%positive ->
     dicts (execute 20%positive 10%positive before_first_call).2 !! st'
     = dicts before_first_call !! st') /\
  (forall n, n <> 20%positive ->
     nodes (execute 20%positive 10%positive before_first_call).2 !! n
     = nodes before_first_call !! n) /\
  (exists nd',
     nodes (execute 20%positive 10%positive before_first_call).2 !! 20%positive
     = Some nd' /\
     base nd' = base (node_of plain) /\
     llm_model nd' = llm_model (node_of plain) /\
     verbose nd' = verbose (node_of plain) /\
     force nd' = force (node_of plain) /\
     additional_info nd' = additional_info (node_of plain) /\
     output_schema nd' = output_schema (node_of plain)) /\
  (forall e, (execute 20%positive 10%positive before_first_call).1 = inl e ->
     dicts (execute 20%positive 10%positive before_first_call).2
     = dicts before_first_call).
Proof.
  apply (execute_frame 20%positive 10%positive before_first_call (node_of plain) state0);
    vm_compute; reflexivity.
Defined.


Lemma execute_again_same_state_witness :
  exists w1 w2,
    execute 20%positive 10%positive before_first_call = (inr 10%positive, w1) /\
    execute 20%positive 10%positive w1 = (inr 10%positive, w2) /\
    dicts w2 = dicts w1 /\
    nodes w2 = nodes w1 /\
    llms w2 = llms w1.
Proof.
  apply (execute_again_same_state 20%positive 10%positive 1%positive before_first_call
           (node_of plain) state0 request description simplified 0 openai
           "The request names products and prices; both are schema fields."
           "refined_prompt" []);
    try (vm_compute; reflexivity).
  discriminate.
Defined.

Lemma execute_ignores_flags_and_cache_witness :
  (execute 20%positive 10%positive
     (with_nodes (insert 20%positive (flagged (node_of plain))) before_first_call)).1
  = (execute 20%positive 10%positive before_first_call).1 /\
  dicts (execute 20%positive 10%positive
           (with_nodes (insert 20%positive (flagged (node_of plain))) before_first_call)).2
  = dicts (execute 20%positive 10%positive before_first_call).2 /\
  llms (execute 20%positive 10%positive
          (with_nodes (insert 20%positive (flagged (node_of plain))) before_first_call)).2
  = llms (execute 20%positive 10%positive before_first_call).2 /\
  calls (execute 20%positive 10%positive
           (with_nodes (insert 20%positive (flagged (node_of plain))) before_first_call)).2
  = calls (execute 20%positive 10%positive before_first_call).2.
Proof.
  apply (execute_ignores_flags_and_cache 20%positive 10%positive before_first_call
           (node_of plain) (flagged (node_of plain)) state0);
    vm_compute; reflexivity.
Defined.

Lemma json_format_reaches_client_witness :
  exists self w1 w2,
    ReasoningNode "user_prompt" ["refined_prompt"] (Some (config 2%positive))
      "PromptRefiner" w0 = (inr self, w1) /\
    llms w1 !! 2%positive = Some (with_format ollama "json") /\
    execute self 10%positive w1 = (inr 10%positive, w2) /\
    dicts w2 !! 10%positive
    = Some (<["refined_prompt" := VStr "{analysis: name -> name, price -> price}"]> state0).
Proof.
  apply (json_format_reaches_client "user_prompt" "refined_prompt" []
           (config 2%positive) "PromptRefiner" w0 2%positive 10%positive ollama
           state0 request description simplified 0
           "{analysis: name -> name, price -> price}");
    vm_compute; reflexivity.
Defined.

Lemma configured_context_is_rendered_witness :
  exists new p text a b rest,
    calls (execute 20%positive 10%positive (world_of (node_of falsy) state0)).2
    = calls (world_of (node_of falsy) state0) ++ new /\
    prompts new = [p] /\
    template p = TEMPLATE_REASONING_WITH_CONTEXT /\
    partial_variables p !! "additional_context" = Some (additional_info (node_of falsy)) /\
    llm_calls new = [(1%positive, text)] /\
    pieces (template p)
    = inr [Lit a; Field "user_input"; Lit b; Field "json_schema";
           Lit ADDITIONAL_CONTEXT_HEADING; Field "additional_context"; Lit rest] /\
    text = a +:+ py_str request +:+ b +:+ py_str simplified
           +:+ ADDITIONAL_CONTEXT_HEADING +:+ py_str (additional_info (node_of falsy))
           +:+ rest.
Proof.
  apply (configured_context_is_rendered 20%positive 10%positive 1%positive
           (world_of (node_of falsy) state0) (node_of falsy) state0
           request description simplified 0 openai);
    try (vm_compute; reflexivity).
  vm_compute. discriminate.
Defined.

Lemma schema_failure_propagates_witness :
  exists w' new,
    execute 20%positive 10%positive (world_of (node_of config_failing_schema) state0)
    = (inl (Raised "schema"), w') /\
    dicts w' = dicts (world_of (node_of config_failing_schema) state0) /\
    nodes w' = nodes (world_of (node_of config_failing_schema) state0) /\
    calls w' = calls (world_of (node_of config_failing_schema) state0) ++ new /\
    transforms new = [] /\
    llm_calls new = [].
Proof.
  apply (schema_failure_propagates 20%positive 10%positive
           (world_of (node_of config_failing_schema) state0)
           (node_of config_failing_schema) state0 request 2 (Raised "schema"));
    vm_compute; reflexivity.
Defined.

Lemma model_name_fails_in_execute_witness :
  exists self w1 w2 new msg,
    ReasoningNode "user_prompt" ["refined_prompt"] (Some config_with_model_name)
      "PromptRefiner" w0 = (inr self, w1) /\
    execute self 10%positive w1 = (inl (TypeError msg), w2) /\
    dicts w2 = dicts w0 /\
    calls w2 = calls w0 ++ new /\
    transforms new = [description] /\
    llm_calls new = [].
Proof.
  apply (model_name_fails_in_execute "user_prompt" ["refined_prompt"]
           config_with_model_name "PromptRefiner" w0 10%positive state0
           request description simplified 0 "gpt-4o-mini");
    vm_compute; reflexivity.
Defined.
